(** * The news ticker widget and the news endpoint

    A shallow embedding of [src/web/ticker.js] (class [NewsTicker]) and of the
    [/api/news] handler of [src/server/server.js].

    Conventions of the embedding:
    - JavaScript numbers that hold times are integers ([Z], epoch
      milliseconds); counts and array indexes are [nat]; the scroll position
      and the speed are binary64 doubles ([float]), computed with the
      primitive operations, so every step rounds as the source does;
    - strings are [string], the UTF-8 text of the JavaScript string;
      [String.prototype.toLowerCase] is a built-in of the platform and is
      a parameter of the server section;
    - a method is a computation in the monad [M]: it threads the whole state
      (the object, its DOM nodes, the browser) and may throw;
    - an [async] method is cut at its [await]: the part before issues the
      request, the part after is a handler run when the request settles;
    - the browser's event loop is the function [dispatch];
    - a [State] is a widget on which [setupTicker] has run: [this.ticker],
      [this.tickerList], [this.offlineBadge] and [this.serviceCycle] are set.
      They stay set after [destroy], which only detaches the nodes. *)

From Stdlib Require Import ZArith QArith Qabs List String Ascii Bool Lia.
From Stdlib Require Import DecimalString.
From Stdlib Require Import PrimFloat FloatOps SpecFloat Uint63.
Import ListNotations.

Local Open Scope string_scope.
Local Open Scope Z_scope.

(** ** JavaScript primitives used by the sources *)

Module Js.

(** [`${n}`] for an integer [n]. *)
Definition toString (n : Z) : string := NilZero.string_of_int (Z.to_int n).

(** [Math.floor (a / b)] on integers, [b > 0]. *)
Definition floorDiv (a b : Z) : Z := a / b.

(** A string is truthy when it is not empty. *)
Definition truthy (s : string) : bool := negb (String.eqb s "").

(** [Array.prototype.slice (0, n)] for a count [n]. *)
Definition slice0 {A : Type} (n : nat) (l : list A) : list A := firstn n l.

Definition lowerChar (c : ascii) : ascii :=
  let n := nat_of_ascii c in
  if (65 <=? n)%nat && (n <=? 90)%nat then ascii_of_nat (n + 32) else c.

(** What [String.prototype.toLowerCase] does to a text all of whose
    characters are ASCII: the letters [A]..[Z] are folded. It is used for
    the ASCII samples only; the handler is stated for the built-in. *)
Fixpoint asciiLowerCase (s : string) : string :=
  match s with
  | EmptyString => EmptyString
  | String c r => String (lowerChar c) (asciiLowerCase r)
  end.

(** A number that is falsy: [0], [-0] or [NaN]. *)
Definition falsy (x : float) : bool :=
  PrimFloat.eqb x 0 || negb (PrimFloat.eqb x x).

(** The double of an integer; exact for an integer below 2^53 in absolute
    value. *)
Definition ofZ (k : Z) : float :=
  if k <? 0 then PrimFloat.opp (PrimFloat.of_uint63 (Uint63.of_Z (- k)))
  else PrimFloat.of_uint63 (Uint63.of_Z k).

(** The rational a finite double stands for; [None] for an infinity or
    [NaN]. *)
Definition value (x : float) : option Q :=
  match Prim2SF x with
  | S754_zero _ => Some 0%Q
  | S754_finite sign m e =>
      let magnitude :=
        if 0 <=? e then inject_Z (Z.pos m * 2 ^ e)
        else (Z.pos m # Pos.pow 2 (Z.to_pos (- e))) in
      Some (if sign then Qopp magnitude else magnitude)
  | _ => None
  end.

(** The double [x] is exactly the rational [q]. *)
Definition exactly (x : float) (q : Q) : bool :=
  match value x with
  | Some v => Qeq_bool v q
  | None => false
  end.

(** [String.prototype.includes]: [needle] occurs in [s]. *)
Fixpoint includes (s needle : string) : bool :=
  prefix needle s ||
  match s with
  | EmptyString => false
  | String _ r => includes r needle
  end.

(** What the HTML serializer does to a text node: [div.textContent = t;
    div.innerHTML]. *)
Fixpoint escapeHtml (s : string) : string :=
  match s with
  | EmptyString => EmptyString
  | String c r =>
      (if Ascii.eqb c "&" then "&amp;"
       else if Ascii.eqb c "<" then "&lt;"
       else if Ascii.eqb c ">" then "&gt;"
       else String c EmptyString) ++ escapeHtml r
  end.

End Js.

(** ** Data model *)

(** One news item, as the endpoint returns it and as the cache stores it. *)
Record Headline := mkHeadline {
  source : string;
  title : string;
  url : string;
  ts : Z
}.

(** One [div.news-ticker-item] of the rendered list. *)
Record TickerItem := mkItem {
  newsSource : string;
  titleHref : string;
  newsTitle : string;
  newsTime : string
}.

Record ServiceEntry := mkService {
  service : string;
  label : string;
  emoji : string
}.

(** [this.serviceCycle], set once by [setupServiceSelector]. *)
Definition serviceCycle : list ServiceEntry :=
  [ mkService "sports" "Sports" "⚽";
    mkService "local" "Local" "🏠";
    mkService "news" "News" "📰";
    mkService "weather" "Weather" "🌤️";
    mkService "tweets" "Tweets" "🐦" ].

(** The argument of the constructor: every field may be missing. *)
Record RawOptions := mkRaw {
  rawTarget : option string;
  rawEndpoint : option string;
  rawSpeed : option float;
  rawGap : option Z;
  rawPauseOnHover : option bool;
  rawDirection : option string;
  rawFontCss : option string;
  rawMaxHeadlines : option nat
}.

(** [this.options]. *)
Record Options := mkOptions {
  target : string;
  endpoint : string;
  speed : float;
  gap : Z;
  pauseOnHover : bool;
  direction : string;
  fontCss : option string;
  maxHeadlines : nat
}.

(** The fields of the object. [animationId] is the handle of the last
    requested animation frame. *)
Record Widget := mkWidget {
  options : Options;
  headlines : list Headline;
  isPaused : bool;
  animationId : option nat;
  currentPosition : float;
  lastUpdate : Z;
  offlineMode : bool;
  currentService : string;
  currentServiceIndex : nat
}.

(** The nodes [setupTicker] creates under the container. [attached] says
    whether they are still children of the container, i.e. whether
    [container.querySelector] finds them; the object keeps its references to
    the track, the list and the offline badge in any case. *)
Record Dom := mkDom {
  attached : bool;
  contentHidden : bool;          (* .news-ticker-content has class hidden *)
  containerBackground : string;  (* .news-ticker-container style *)
  containerBorder : string;
  btnText : string;              (* #news-service-btn *)
  btnBorder : string;
  tickerList : list TickerItem;  (* children of .news-ticker-list *)
  scrollWidth : Z;               (* of .news-ticker-list, set by layout *)
  offlineDisplay : string;       (* .news-ticker-offline style.display *)
  trackTransform : option float; (* translateX of .news-ticker-track *)
  trackDirection : string;
  pausedClass : bool;            (* container has class paused *)
  hoverListeners : bool          (* container listens to mouseenter/leave *)
}.

(** The value stored under the key [news-ticker-cache]. *)
Inductive CacheItem :=
| Unparsable                                         (* JSON.parse throws *)
| Snapshot (cached : list Headline) (timestamp : Z).

Inductive LocalStorage :=
| StorageUnavailable                     (* getItem and setItem throw *)
| Storage (item : option CacheItem).

(** What the widget uses of the browser. *)
Record Browser := mkBrowser {
  clock : Z;                  (* Date.now () *)
  localStorage : LocalStorage;
  rafPending : list nat;      (* requested animation frames, not yet run *)
  rafNext : nat;              (* next handle; handles are not 0 *)
  intervals : list Z;         (* periods of the running setInterval timers *)
  inflight : list string      (* requests issued by fetch, not yet settled *)
}.

Record State := mkState {
  this : Widget;
  dom : Dom;
  env : Browser
}.

(** How a [fetch] settles. [body] is [None] when the body is not a JSON array
    of headline records. *)
Inductive FetchResult :=
| NetworkError
| HttpResponse (status : Z) (body : option (list Headline)).

(** [response.ok]. *)
Definition ok (status : Z) : bool := (200 <=? status) && (status <=? 299).

Inductive JsError :=
| TypeError
| SyntaxError
| StorageError
| FetchError
| HttpError (status : Z).

(** ** Field updates *)

Definition set_speed (v : float) (o : Options) : Options :=
  mkOptions (target o) (endpoint o) v (gap o) (pauseOnHover o) (direction o)
            (fontCss o) (maxHeadlines o).
Definition set_direction (v : string) (o : Options) : Options :=
  mkOptions (target o) (endpoint o) (speed o) (gap o) (pauseOnHover o) v
            (fontCss o) (maxHeadlines o).

Definition set_options (v : Options) (w : Widget) : Widget :=
  mkWidget v (headlines w) (isPaused w) (animationId w) (currentPosition w)
           (lastUpdate w) (offlineMode w) (currentService w)
           (currentServiceIndex w).
Definition set_headlines (v : list Headline) (w : Widget) : Widget :=
  mkWidget (options w) v (isPaused w) (animationId w) (currentPosition w)
           (lastUpdate w) (offlineMode w) (currentService w)
           (currentServiceIndex w).
Definition set_isPaused (v : bool) (w : Widget) : Widget :=
  mkWidget (options w) (headlines w) v (animationId w) (currentPosition w)
           (lastUpdate w) (offlineMode w) (currentService w)
           (currentServiceIndex w).
Definition set_animationId (v : option nat) (w : Widget) : Widget :=
  mkWidget (options w) (headlines w) (isPaused w) v (currentPosition w)
           (lastUpdate w) (offlineMode w) (currentService w)
           (currentServiceIndex w).
Definition set_currentPosition (v : float) (w : Widget) : Widget :=
  mkWidget (options w) (headlines w) (isPaused w) (animationId w) v
           (lastUpdate w) (offlineMode w) (currentService w)
           (currentServiceIndex w).
Definition set_lastUpdate (v : Z) (w : Widget) : Widget :=
  mkWidget (options w) (headlines w) (isPaused w) (animationId w)
           (currentPosition w) v (offlineMode w) (currentService w)
           (currentServiceIndex w).
Definition set_offlineMode (v : bool) (w : Widget) : Widget :=
  mkWidget (options w) (headlines w) (isPaused w) (animationId w)
           (currentPosition w) (lastUpdate w) v (currentService w)
           (currentServiceIndex w).
Definition set_currentService (v : string) (w : Widget) : Widget :=
  mkWidget (options w) (headlines w) (isPaused w) (animationId w)
           (currentPosition w) (lastUpdate w) (offlineMode w) v
           (currentServiceIndex w).
Definition set_currentServiceIndex (v : nat) (w : Widget) : Widget :=
  mkWidget (options w) (headlines w) (isPaused w) (animationId w)
           (currentPosition w) (lastUpdate w) (offlineMode w)
           (currentService w) v.

Definition set_attached (v : bool) (d : Dom) : Dom :=
  mkDom v (contentHidden d) (containerBackground d) (containerBorder d)
        (btnText d) (btnBorder d) (tickerList d) (scrollWidth d)
        (offlineDisplay d) (trackTransform d) (trackDirection d)
        (pausedClass d) (hoverListeners d).
Definition set_contentHidden (v : bool) (d : Dom) : Dom :=
  mkDom (attached d) v (containerBackground d) (containerBorder d)
        (btnText d) (btnBorder d) (tickerList d) (scrollWidth d)
        (offlineDisplay d) (trackTransform d) (trackDirection d)
        (pausedClass d) (hoverListeners d).
Definition set_containerBackground (v : string) (d : Dom) : Dom :=
  mkDom (attached d) (contentHidden d) v (containerBorder d)
        (btnText d) (btnBorder d) (tickerList d) (scrollWidth d)
        (offlineDisplay d) (trackTransform d) (trackDirection d)
        (pausedClass d) (hoverListeners d).
Definition set_containerBorder (v : string) (d : Dom) : Dom :=
  mkDom (attached d) (contentHidden d) (containerBackground d) v
        (btnText d) (btnBorder d) (tickerList d) (scrollWidth d)
        (offlineDisplay d) (trackTransform d) (trackDirection d)
        (pausedClass d) (hoverListeners d).
Definition set_btnText (v : string) (d : Dom) : Dom :=
  mkDom (attached d) (contentHidden d) (containerBackground d)
        (containerBorder d) v (btnBorder d) (tickerList d) (scrollWidth d)
        (offlineDisplay d) (trackTransform d) (trackDirection d)
        (pausedClass d) (hoverListeners d).
Definition set_btnBorder (v : string) (d : Dom) : Dom :=
  mkDom (attached d) (contentHidden d) (containerBackground d)
        (containerBorder d) (btnText d) v (tickerList d) (scrollWidth d)
        (offlineDisplay d) (trackTransform d) (trackDirection d)
        (pausedClass d) (hoverListeners d).
Definition set_tickerList (v : list TickerItem) (d : Dom) : Dom :=
  mkDom (attached d) (contentHidden d) (containerBackground d)
        (containerBorder d) (btnText d) (btnBorder d) v (scrollWidth d)
        (offlineDisplay d) (trackTransform d) (trackDirection d)
        (pausedClass d) (hoverListeners d).
Definition set_scrollWidth (v : Z) (d : Dom) : Dom :=
  mkDom (attached d) (contentHidden d) (containerBackground d)
        (containerBorder d) (btnText d) (btnBorder d) (tickerList d) v
        (offlineDisplay d) (trackTransform d) (trackDirection d)
        (pausedClass d) (hoverListeners d).
Definition set_offlineDisplay (v : string) (d : Dom) : Dom :=
  mkDom (attached d) (contentHidden d) (containerBackground d)
        (containerBorder d) (btnText d) (btnBorder d) (tickerList d)
        (scrollWidth d) v (trackTransform d) (trackDirection d)
        (pausedClass d) (hoverListeners d).
Definition set_trackTransform (v : option float) (d : Dom) : Dom :=
  mkDom (attached d) (contentHidden d) (containerBackground d)
        (containerBorder d) (btnText d) (btnBorder d) (tickerList d)
        (scrollWidth d) (offlineDisplay d) v (trackDirection d)
        (pausedClass d) (hoverListeners d).
Definition set_trackDirection (v : string) (d : Dom) : Dom :=
  mkDom (attached d) (contentHidden d) (containerBackground d)
        (containerBorder d) (btnText d) (btnBorder d) (tickerList d)
        (scrollWidth d) (offlineDisplay d) (trackTransform d) v
        (pausedClass d) (hoverListeners d).
Definition set_pausedClass (v : bool) (d : Dom) : Dom :=
  mkDom (attached d) (contentHidden d) (containerBackground d)
        (containerBorder d) (btnText d) (btnBorder d) (tickerList d)
        (scrollWidth d) (offlineDisplay d) (trackTransform d)
        (trackDirection d) v (hoverListeners d).

Definition set_clock (v : Z) (b : Browser) : Browser :=
  mkBrowser v (localStorage b) (rafPending b) (rafNext b) (intervals b)
            (inflight b).
Definition set_localStorage (v : LocalStorage) (b : Browser) : Browser :=
  mkBrowser (clock b) v (rafPending b) (rafNext b) (intervals b) (inflight b).
Definition set_rafPending (v : list nat) (b : Browser) : Browser :=
  mkBrowser (clock b) (localStorage b) v (rafNext b) (intervals b)
            (inflight b).
Definition set_rafNext (v : nat) (b : Browser) : Browser :=
  mkBrowser (clock b) (localStorage b) (rafPending b) v (intervals b)
            (inflight b).
Definition set_intervals (v : list Z) (b : Browser) : Browser :=
  mkBrowser (clock b) (localStorage b) (rafPending b) (rafNext b) v
            (inflight b).
Definition set_inflight (v : list string) (b : Browser) : Browser :=
  mkBrowser (clock b) (localStorage b) (rafPending b) (rafNext b)
            (intervals b) v.

(** ** The monad of methods: state and exceptions *)

Inductive Outcome (A : Type) :=
| Normal (a : A) (s : State)
| Thrown (e : JsError) (s : State).
Arguments Normal {A} a s.
Arguments Thrown {A} e s.

Definition M (A : Type) : Type := State -> Outcome A.

Definition ret {A} (a : A) : M A := fun s => Normal a s.
Definition throw {A} (e : JsError) : M A := fun s => Thrown e s.
Definition bind {A B} (m : M A) (k : A -> M B) : M B :=
  fun s => match m s with
           | Normal a s' => k a s'
           | Thrown e s' => Thrown e s'
           end.
(** [try { m } catch (e) { h e }]. *)
Definition try_catch {A} (m : M A) (h : JsError -> M A) : M A :=
  fun s => match m s with
           | Normal a s' => Normal a s'
           | Thrown e s' => h e s'
           end.

Notation "x <- m ;; k" := (bind m (fun x => k))
  (at level 61, m at next level, right associativity).
Notation "m ;; k" := (bind m (fun _ => k))
  (at level 61, right associativity).

Definition get : M State := fun s => Normal s s.
Definition on_this (f : Widget -> Widget) : M unit :=
  fun s => Normal tt (mkState (f (this s)) (dom s) (env s)).
Definition on_dom (f : Dom -> Dom) : M unit :=
  fun s => Normal tt (mkState (this s) (f (dom s)) (env s)).
Definition on_env (f : Browser -> Browser) : M unit :=
  fun s => Normal tt (mkState (this s) (dom s) (f (env s))).

(** The state a method leaves, whether it returned or threw. *)
Definition final {A} (o : Outcome A) : State :=
  match o with
  | Normal _ s => s
  | Thrown _ s => s
  end.
Definition run {A} (m : M A) (s : State) : State := final (m s).

Definition threw {A} (o : Outcome A) : bool :=
  match o with
  | Normal _ _ => false
  | Thrown _ _ => true
  end.

Fixpoint forEach {A} (l : list A) (f : A -> M unit) : M unit :=
  match l with
  | [] => ret tt
  | x :: r => f x ;; forEach r f
  end.

Fixpoint mapM {A B} (f : A -> M B) (l : list A) : M (list B) :=
  match l with
  | [] => ret []
  | x :: r => y <- f x ;; ys <- mapM f r ;; ret (y :: ys)
  end.

(** ** Browser services *)

Definition Date_now : M Z := s <- get ;; ret (clock (env s)).

Definition getItem : M (option CacheItem) :=
  s <- get ;;
  match localStorage (env s) with
  | StorageUnavailable => throw StorageError
  | Storage item => ret item
  end.

Definition setItem (v : CacheItem) : M unit :=
  s <- get ;;
  match localStorage (env s) with
  | StorageUnavailable => throw StorageError
  | Storage _ => on_env (set_localStorage (Storage (Some v)))
  end.

Definition requestAnimationFrame : M nat :=
  s <- get ;;
  let id := rafNext (env s) in
  on_env (fun b => set_rafNext (S id) (set_rafPending (rafPending b ++ [id]) b)) ;;
  ret id.

Definition cancelAnimationFrame (id : nat) : M unit :=
  on_env (fun b =>
    set_rafPending (filter (fun h => negb (Nat.eqb h id)) (rafPending b)) b).

(** [setInterval (() => this.loadHeadlines (), period)]: the handle it returns
    is dropped by the caller. *)
Definition setInterval (period : Z) : M unit :=
  on_env (fun b => set_intervals (intervals b ++ [period]) b).

Definition fetch (request : string) : M unit :=
  on_env (fun b => set_inflight (inflight b ++ [request]) b).

(** ** The class NewsTicker *)

Definition orDefault (o : option string) (d : string) : string :=
  match o with
  | Some s => if Js.truthy s then s else d
  | None => d
  end.

(** The [options] object the constructor builds: [x || d] also replaces
    [0] and the empty string by the default. *)
Definition defaults (raw : RawOptions) : Options :=
  mkOptions
    (orDefault (rawTarget raw) "#news-ticker")
    (orDefault (rawEndpoint raw) "/api/news")
    (match rawSpeed raw with
     | Some v => if Js.falsy v then 60%float else v
     | None => 60%float
     end)
    (match rawGap raw with
     | Some g => if g =? 0 then 48 else g
     | None => 48
     end)
    (match rawPauseOnHover raw with
     | Some false => false
     | _ => true
     end)
    (orDefault (rawDirection raw) "ltr")
    (match rawFontCss raw with
     | Some f => if Js.truthy f then Some f else None
     | None => None
     end)
    (match rawMaxHeadlines raw with
     | Some (S n) => S n
     | _ => 50%nat
     end).

(** The container before [setupTicker] has filled it. *)
Definition emptyContainer : Dom :=
  mkDom false false "" "" "" "" [] 0 "" None "" false false.

(** The object as the constructor leaves it before it calls [init]. *)
Definition constructed (raw : RawOptions) (b : Browser) : State :=
  mkState (mkWidget (defaults raw) [] false None 0%float 0 false "news" 0%nat)
          emptyContainer b.

Definition hiddenGlyph : string := "📤".

Definition formatTimeAgoAt (now timestamp : Z) : string :=
  let diff := now - timestamp in
  let minutes := Js.floorDiv diff 60000 in
  let hours := Js.floorDiv diff 3600000 in
  let days := Js.floorDiv diff 86400000 in
  if minutes <? 1 then "now"
  else if minutes <? 60 then Js.toString minutes ++ "m ago"
  else if hours <? 24 then Js.toString hours ++ "h ago"
  else Js.toString days ++ "d ago".

Definition formatTimeAgo (timestamp : Z) : M string :=
  now <- Date_now ;; ret (formatTimeAgoAt now timestamp).

Definition sanitizeText (text : string) : string := Js.escapeHtml text.

Definition saveToCache : M unit :=
  try_catch
    (s <- get ;;
     now <- Date_now ;;
     setItem (Snapshot (headlines (this s)) now))
    (fun _ => ret tt).

(** The element built for one headline in [renderHeadlines]. *)
Definition headlineElement (h : Headline) : M TickerItem :=
  age <- formatTimeAgo (ts h) ;;
  ret (mkItem (sanitizeText (source h)) (url h) (sanitizeText (title h)) age).

Definition appendChild (e : TickerItem) : M unit :=
  on_dom (fun d => set_tickerList (tickerList d ++ [e]) d).

(** [this.tickerList] is set in every state in which a caller reaches
    [renderHeadlines], so the guard is the test on [headlines]. *)
Definition renderHeadlines : M unit :=
  s <- get ;;
  if Nat.eqb (List.length (headlines (this s))) 0 then ret tt
  else
    headlineElements <- mapM headlineElement (headlines (this s)) ;;
    on_dom (set_tickerList []) ;;
    forEach headlineElements appendChild ;;
    forEach headlineElements appendChild ;;
    saveToCache ;;
    on_this (set_currentPosition 0%float).

Definition loadFromCache : M unit :=
  try_catch
    (cached <- getItem ;;
     match cached with
     | None => ret tt
     | Some Unparsable => throw SyntaxError
     | Some (Snapshot hs timestamp) =>
         now <- Date_now ;;
         if now - timestamp <? 3600000 then
           on_this (set_headlines hs) ;;
           renderHeadlines
         else ret tt
     end)
    (fun _ => ret tt).

(** [loadHeadlines] up to [await fetch (endpoint)]. *)
Definition loadHeadlines : M unit :=
  s <- get ;;
  let w := this s in
  fetch (if Js.truthy (currentService w)
            && negb (String.eqb (currentService w) "news")
         then endpoint (options w) ++ "?service=" ++ currentService w
         else endpoint (options w)).

(** [loadHeadlines] from the point where the request has settled with [r]. *)
Definition loadHeadlines_settled (r : FetchResult) : M unit :=
  try_catch
    (match r with
     | NetworkError => throw FetchError
     | HttpResponse status body =>
         if negb (ok status) then throw (HttpError status)
         else
           match body with
           | None => throw SyntaxError
           | Some fetched =>
               s <- get ;;
               on_this (set_headlines
                          (Js.slice0 (maxHeadlines (options (this s))) fetched)) ;;
               on_this (set_offlineMode false) ;;
               on_dom (set_offlineDisplay "none") ;;
               renderHeadlines ;;
               now <- Date_now ;;
               on_this (set_lastUpdate now)
           end
     end)
    (fun _ =>
       on_this (set_offlineMode true) ;;
       on_dom (set_offlineDisplay "block") ;;
       loadFromCache).

Definition cycleToNextService : M unit :=
  on_this (fun w =>
    set_currentServiceIndex
      (Nat.modulo (currentServiceIndex w + 1) (List.length serviceCycle)) w) ;;
  s <- get ;;
  match nth_error serviceCycle (currentServiceIndex (this s)) with
  | None => throw TypeError
  | Some nextService =>
      (if attached (dom s) then on_dom (set_btnText (label nextService))
       else throw TypeError) ;;
      on_this (set_currentService (service nextService)) ;;
      loadHeadlines
  end.

Definition toggleTickerVisibility : M unit :=
  s <- get ;;
  if negb (attached (dom s)) then throw TypeError
  else if contentHidden (dom s) then
    on_dom (set_contentHidden false) ;;
    on_dom (set_containerBackground "") ;;
    on_dom (set_containerBorder "") ;;
    match nth_error serviceCycle (currentServiceIndex (this s)) with
    | None => throw TypeError
    | Some current =>
        on_dom (set_btnText (label current)) ;;
        on_dom (set_btnBorder "")
    end
  else
    on_dom (set_contentHidden true) ;;
    on_dom (set_containerBackground "transparent") ;;
    on_dom (set_containerBorder "none") ;;
    on_dom (set_btnText hiddenGlyph) ;;
    on_dom (set_btnBorder "2px solid #8FE04A").

(** The [click] listener of the selector button. *)
Definition onClick : M unit :=
  s <- get ;;
  if negb (attached (dom s)) then throw TypeError
  else if contentHidden (dom s) then toggleTickerVisibility
  else cycleToNextService.

(** The [dblclick] listener of the selector button. *)
Definition onDblClick : M unit := toggleTickerVisibility.

Definition setupServiceSelector : M unit :=
  on_this (set_currentServiceIndex 0%nat) ;;
  on_this (set_currentService "sports").

Definition setupTicker : M unit :=
  s <- get ;;
  on_dom (fun _ =>
    mkDom true false "" "" "Sports" "" [] 0 "none" None
          (if String.eqb (direction (options (this s))) "rtl" then "rtl" else "")
          false (pauseOnHover (options (this s)))) ;;
  setupServiceSelector.

(** The closure [animate] of [startAnimation]: one animation step. *)
Definition animate : M unit :=
  s <- get ;;
  if isPaused (this s) then
    id <- requestAnimationFrame ;;
    on_this (set_animationId (Some id))
  else
    on_this (fun w =>
      set_currentPosition
        (PrimFloat.sub (currentPosition w)
                       (PrimFloat.div (speed (options w)) 60)) w) ;;
    s1 <- get ;;
    let tickerWidth := PrimFloat.div (Js.ofZ (scrollWidth (dom s1))) 2 in
    (if PrimFloat.leb tickerWidth (PrimFloat.abs (currentPosition (this s1)))
     then on_this (set_currentPosition 0%float)
     else ret tt) ;;
    s2 <- get ;;
    on_dom (set_trackTransform (Some (currentPosition (this s2)))) ;;
    id <- requestAnimationFrame ;;
    on_this (set_animationId (Some id)).

Definition truthyHandle (h : option nat) : bool :=
  match h with
  | Some id => negb (Nat.eqb id 0)
  | None => false
  end.

Definition startAnimation : M unit :=
  s <- get ;;
  if truthyHandle (animationId (this s)) then ret tt else animate.

Definition pause : M unit :=
  on_this (set_isPaused true) ;; on_dom (set_pausedClass true).

Definition resume : M unit :=
  on_this (set_isPaused false) ;; on_dom (set_pausedClass false).

Definition destroy : M unit :=
  s <- get ;;
  (if truthyHandle (animationId (this s)) then
     match animationId (this s) with
     | Some id => cancelAnimationFrame id
     | None => ret tt
     end
   else ret tt) ;;
  on_dom (set_attached false).

Definition setSpeed (v : float) : M unit :=
  on_this (fun w => set_options (set_speed v (options w)) w).

Definition setDirection (v : string) : M unit :=
  on_this (fun w => set_options (set_direction v (options w)) w) ;;
  on_dom (set_trackDirection v).

Definition refresh : M unit := loadHeadlines.

(** [init] for a page in which the target is found or not, and the font
    style sheet, when one is configured, loads or not. *)
Definition init (targetFound fontLoads : bool) : M unit :=
  try_catch
    (if negb targetFound then ret tt
     else
       s <- get ;;
       (match fontCss (options (this s)) with
        | Some _ => if fontLoads then ret tt else throw FetchError
        | None => ret tt
        end) ;;
       setupTicker ;;
       loadHeadlines ;;
       startAnimation ;;
       setInterval 300000)
    (fun _ => ret tt).

(** [new NewsTicker (raw)]. The result is [None] when [init] gives up before
    [setupTicker] (no target, or the font does not load): such an object has
    no nodes, no listener, no timer and no request, and is not a [State]. *)
Definition NewsTicker (raw : RawOptions) (targetFound fontLoads : bool)
    (b : Browser) : option State :=
  let reachesSetup :=
    targetFound
    && match fontCss (defaults raw) with
       | Some _ => fontLoads
       | None => true
       end in
  if reachesSetup
  then Some (run (init targetFound fontLoads) (constructed raw b))
  else None.

(** ** The event loop *)

Inductive Event :=
| Frame                                   (* the display refreshes *)
| IntervalFired (k : nat)                 (* k-th interval timer fires *)
| FetchSettled (k : nat) (r : FetchResult)(* k-th request settles *)
| Click
| DblClick
| MouseEnter
| MouseLeave
| Layout (w : Z)                          (* scrollWidth is recomputed *)
| Elapse (dt : Z)                         (* the clock advances *)
| Destroy
| SetSpeed (v : float)
| Refresh.

Fixpoint removeNth {A} (k : nat) (l : list A) : list A :=
  match l, k with
  | [], _ => []
  | _ :: r, O => r
  | x :: r, S k' => x :: removeNth k' r
  end.

(** One turn of the event loop. An event that has no listener, no timer or
    no request behind it leaves the state as it is; an exception a listener
    throws is reported and dropped. *)
Definition dispatch (e : Event) (s : State) : State :=
  match e with
  | Frame =>
      fold_left (fun st _ => run animate st) (rafPending (env s))
                (run (on_env (set_rafPending [])) s)
  | IntervalFired k =>
      match nth_error (intervals (env s)) k with
      | Some _ => run loadHeadlines s
      | None => s
      end
  | FetchSettled k r =>
      match nth_error (inflight (env s)) k with
      | Some _ =>
          run (on_env (fun b => set_inflight (removeNth k (inflight b)) b) ;;
               loadHeadlines_settled r) s
      | None => s
      end
  | Click => if attached (dom s) then run onClick s else s
  | DblClick => if attached (dom s) then run onDblClick s else s
  | MouseEnter => if hoverListeners (dom s) then run pause s else s
  | MouseLeave => if hoverListeners (dom s) then run resume s else s
  | Layout w => run (on_dom (set_scrollWidth w)) s
  | Elapse dt => run (on_env (fun b => set_clock (clock b + Z.max 0 dt) b)) s
  | Destroy => run destroy s
  | SetSpeed v => run (setSpeed v) s
  | Refresh => run refresh s
  end.

Definition dispatchAll (es : list Event) (s : State) : State :=
  fold_left (fun st e => dispatch e st) es s.

(** A browser in which nothing has been requested yet. *)
Definition idleBrowser (now : Z) (store : LocalStorage) : Browser :=
  mkBrowser now store [] 1%nat [] [].

Definition noOptions : RawOptions :=
  mkRaw None None None None None None None None.

(** ** The news endpoint of the server *)

Module Server.

(** A value of [req.query]: a string, or what a repeated or nested
    parameter parses to (an array or an object). *)
Inductive QueryValue :=
| QString (s : string)
| QOther.

Record Request := mkRequest {
  queryService : option QueryValue;
  queryQ : option QueryValue
}.

Inductive Response :=
| Json (body : list Headline)              (* res.json (headlines) *)
| Failure (status : Z) (message : string). (* res.status (500).json (..) *)

(** [v || d] and [if (v)] on a query value. *)
Definition truthy (v : option QueryValue) : bool :=
  match v with
  | Some (QString s) => Js.truthy s
  | Some QOther => true
  | None => false
  end.

(** The [switch] on [service]. *)
Definition sourceFile (v : option QueryValue) : string :=
  match (if truthy v then v else Some (QString "news")) with
  | Some (QString s) =>
      if String.eqb s "local" then "news-local.txt"
      else if String.eqb s "sports" then "news-sports.txt"
      else if String.eqb s "weather" then "news-weather.txt"
      else if String.eqb s "tweets" then "news-tweets.txt"
      else "news.txt"
  | _ => "news.txt"
  end.

Section Handler.

(** [String.prototype.toLowerCase], a built-in of the platform. *)
Variable toLowerCase : string -> string.

(** The parser of [./fetchNews]: a result of [None] is a rejected
    promise. The records it yields carry string [title] and [source]. *)
Variable loadHeadlinesFromSource : string -> option (list Headline).
Variable loadHeadlines : option (list Headline).

(** The callback of [headlines.filter], [query] already in lower case. *)
Definition matches (query : string) (headline : Headline) : bool :=
  Js.includes (toLowerCase (title headline)) query
  || Js.includes (toLowerCase (source headline)) query.

(** The list the handler holds after source selection. *)
Definition selected (req : Request) : option (list Headline) :=
  match loadHeadlinesFromSource (sourceFile (queryService req)) with
  | Some headlines => Some headlines
  | None => loadHeadlines
  end.

(** [app.get ('/api/news', ...)]. *)
Definition apiNews (req : Request) : Response :=
  match selected req with
  | None => Failure 500 "Failed to load news"
  | Some headlines =>
      if truthy (queryQ req) then
        match queryQ req with
        | Some (QString q) =>
            let query := toLowerCase q in
            Json (filter (matches query) headlines)
        | _ => Failure 500 "Failed to load news"
        end
      else Json headlines
  end.



End Handler.

End Server.

(** ** Predicates used in the statements *)

(** The request failed: a network error or a status outside 200..299. *)
Definition fetchFailed (r : FetchResult) : bool :=
  match r with
  | NetworkError => true
  | HttpResponse status _ => negb (ok status)
  end.

(** The [try] block of [loadHeadlines] throws: the request failed, or the
    body is not an array of headlines. *)
Definition rejected (r : FetchResult) : bool :=
  match r with
  | NetworkError => true
  | HttpResponse status body =>
      negb (ok status) || match body with None => true | Some _ => false end
  end.

(** The snapshot [loadFromCache] accepts at the current time, if any. *)
Definition usableSnapshot (s : State) : option (list Headline) :=
  match localStorage (env s) with
  | Storage (Some (Snapshot hs timestamp)) =>
      if clock (env s) - timestamp <? 3600000 then Some hs else None
  | _ => None
  end.

(** The items [renderHeadlines] builds at time [now] for one copy of the
    list. *)
Definition itemsAt (now : Z) (hs : list Headline) : list TickerItem :=
  map (fun h => mkItem (sanitizeText (source h)) (url h)
                       (sanitizeText (title h)) (formatTimeAgoAt now (ts h)))
      hs.

(** The browser after [saveToCache] has run with [hs] as [headlines]. *)
Definition afterSave (hs : list Headline) (b : Browser) : Browser :=
  match localStorage b with
  | StorageUnavailable => b
  | Storage _ => set_localStorage (Storage (Some (Snapshot hs (clock b)))) b
  end.

(** The state a render of the current, non-empty [headlines] leaves. *)
Definition rendered (s : State) : State :=
  let items := itemsAt (clock (env s)) (headlines (this s)) in
  mkState (set_currentPosition 0%float (this s))
          (set_tickerList (items ++ items) (dom s))
          (afterSave (headlines (this s)) (env s)).

(** The state [renderHeadlines] leaves: it returns at once on an empty
    list. *)
Definition afterRender (s : State) : State :=
  match headlines (this s) with
  | [] => s
  | _ :: _ => rendered s
  end.

Definition withHeadlines (hs : list Headline) (s : State) : State :=
  mkState (set_headlines hs (this s)) (dom s) (env s).

(** The state at the start of the [catch] branch of [loadHeadlines]. *)
Definition markedOffline (s : State) : State :=
  mkState (set_offlineMode true (this s))
          (set_offlineDisplay "block" (dom s)) (env s).

(** The selector is consistent: [currentService] names the entry at
    [currentServiceIndex]. *)
Definition selectorConsistent (s : State) : Prop :=
  option_map service (nth_error serviceCycle (currentServiceIndex (this s)))
  = Some (currentService (this s)).

(** A list that consists of two copies of one list. *)
Definition doubled (l : list TickerItem) : Prop :=
  exists half, l = (half ++ half)%list.

(** What holds of the selector and of the display in every state a widget
    goes through. *)
Definition wellFormed (s : State) : Prop :=
  (currentServiceIndex (this s) < 5)%nat
  /\ selectorConsistent s
  /\ doubled (tickerList (dom s)).

(** The states of a widget: built by the constructor, then driven by
    events. *)
Inductive reachable : State -> Prop :=
| reachable_new (raw : RawOptions) (fontLoads : bool) (now : Z)
    (store : LocalStorage) (s : State) :
    NewsTicker raw true fontLoads (idleBrowser now store) = Some s ->
    reachable s
| reachable_step (e : Event) (s : State) :
    reachable s -> reachable (dispatch e s).

(** What the browser still has scheduled for the widget (the requested
    animation frames and the interval timers), with the handle the widget
    holds and whether its nodes are attached. *)
Definition scheduled (s : State)
  : list nat * list Z * nat * option nat * bool :=
  (rafPending (env s), intervals (env s), rafNext (env s),
   animationId (this s), attached (dom s)).

(** The animation loop is running: its one requested frame is pending. *)
Definition loopRunning (s : State) : Prop :=
  exists id, id <> 0%nat /\ animationId (this s) = Some id
             /\ rafPending (env s) = [id].

(** The timer of [init] is running, and the loop runs as long as the widget
    has not been destroyed. *)
Definition timersRunning (s : State) : Prop :=
  intervals (env s) = [300000]
  /\ rafNext (env s) <> 0%nat
  /\ (if attached (dom s) then loopRunning s else rafPending (env s) = []).

(** The index one advance of the selector leads to. *)
Definition next (i : nat) : nat := ((i + 1) mod 5)%nat.

Fixpoint iter {A} (n : nat) (f : A -> A) (a : A) : A :=
  match n with
  | O => a
  | S k => iter k f (f a)
  end.






(** What a browser delivers to the selector button for one double
    activation: the two clicks, then the double click. *)
Definition doubleActivation : list Event := [Click; Click; DblClick].

(** ** Sample data for the concrete statements *)

Definition headlineA (t : Z) : Headline := mkHeadline "A" "T1" "u1" t.
Definition headlineB (t : Z) : Headline := mkHeadline "B" "T2 <live>" "u2" t.

(** A widget with default options on a page with its target, started at
    time [now] over the storage [store]. *)
Definition startedWidget (now : Z) (store : LocalStorage) : State :=
  run (init true true) (constructed noOptions (idleBrowser now store)).

Definition freshWidget (now : Z) : State := startedWidget now (Storage None).

(** A cache written at time 0 by an earlier session. *)
Definition oldCache : LocalStorage :=
  Storage (Some (Snapshot [headlineB 0] 0)).


(** A first fetch brought one headline, a later one an empty array. *)
Definition afterEmptyFetch : State :=
  dispatchAll
    [ FetchSettled 0 (HttpResponse 200 (Some [headlineA 1000]));
      Refresh;
      FetchSettled 0 (HttpResponse 200 (Some [])) ]
    (freshWidget 1000).

(** ** Predicates for the further properties *)

(** A text that holds no raw angle bracket. *)
Definition plainText (t : string) : Prop :=
  forall c, In c (list_ascii_of_string t) -> c <> "<"%char /\ c <> ">"%char.

(** A rendered item whose source and title hold no raw angle bracket. *)
Definition safeItem (i : TickerItem) : Prop :=
  plainText (newsSource i) /\ plainText (newsTitle i).

(** The label of the entry at index [i] of the cycle. *)
Definition labelAt (i : nat) : option string :=
  option_map label (nth_error serviceCycle i).

(** The selector button and the container are styled as
    [toggleTickerVisibility] and [cycleToNextService] leave them: hidden
    content goes with the glyph and the green border, shown content with
    the label of the current service and no inline style. *)
Definition presentable (s : State) : Prop :=
  if contentHidden (dom s)
  then btnText (dom s) = hiddenGlyph
       /\ btnBorder (dom s) = "2px solid #8FE04A"
       /\ containerBackground (dom s) = "transparent"
       /\ containerBorder (dom s) = "none"
  else labelAt (currentServiceIndex (this s)) = Some (btnText (dom s))
       /\ btnBorder (dom s) = ""
       /\ containerBackground (dom s) = ""
       /\ containerBorder (dom s) = "".

(** The clock has advanced by [dt] since [s]. *)
Definition later (dt : Z) (s : State) : State :=
  mkState (this s) (dom s) (set_clock (clock (env s) + dt) (env s)).

(** The request [loadHeadlines] issues for the service [id]. *)
Definition requestFor (endpoint id : string) : string :=
  if String.eqb id "news" then endpoint
  else endpoint ++ "?service=" ++ id.

(** Every request on its way goes to the endpoint of the widget and asks
    for a service of the cycle. *)
Definition ownRequests (s : State) : Prop :=
  Forall (fun r => exists e,
                     In e serviceCycle
                     /\ r = requestFor (endpoint (options (this s)))
                                       (service e))
         (inflight (env s)).

(** The offline badge shows exactly while [offlineMode] is set. *)
Definition badgeFollowsMode (s : State) : Prop :=
  offlineDisplay (dom s) = if offlineMode (this s) then "block" else "none".

(** The four services that have a file of their own on the server. *)
Definition ownFile : list string := ["local"; "sports"; "weather"; "tweets"].

(** * Properties *)

Local Open Scope list_scope.

Arguments renderHeadlines : simpl never.
Arguments saveToCache : simpl never.
Arguments loadFromCache : simpl never.
Arguments loadHeadlines : simpl never.
Arguments loadHeadlines_settled : simpl never.
Arguments cycleToNextService : simpl never.
Arguments toggleTickerVisibility : simpl never.
Arguments animate : simpl never.
Arguments next : simpl never.

(** ** Construction *)

Lemma defaults_maxHeadlines (raw : RawOptions) :
  (1 <= maxHeadlines (defaults raw))%nat.
Proof.
  unfold defaults. cbn. destruct (rawMaxHeadlines raw) as [[|n]|]; lia.
Qed.

Lemma NewsTicker_started (now : Z) (store : LocalStorage) :
  NewsTicker noOptions true true (idleBrowser now store)
  = Some (startedWidget now store).
Proof. reflexivity. Qed.

(** Without its target the constructor builds nothing. *)
Lemma NewsTicker_without_target (raw : RawOptions) (fontLoads : bool)
    (b : Browser) :
  NewsTicker raw false fontLoads b = None
  /\ run (init false fontLoads) (constructed raw b) = constructed raw b.
Proof. split; reflexivity. Qed.

Lemma animate_total (s : State) : animate s = Normal tt (run animate s).
Proof.
  destruct s as [w d b]. destruct w, d.
  unfold run, animate, requestAnimationFrame, bind, get, ret, on_this,
    on_dom, on_env.
  cbn -[Js.ofZ].
  destruct isPaused0; [reflexivity|].
  destruct (PrimFloat.leb _ _); reflexivity.
Qed.

(** What an animation step does besides moving the track: it requests the
    next frame and keeps its handle. *)
Lemma animate_requests_frame (s : State) :
  let s' := run animate s in
  rafPending (env s') = rafPending (env s) ++ [rafNext (env s)]
  /\ animationId (this s') = Some (rafNext (env s))
  /\ intervals (env s') = intervals (env s)
  /\ inflight (env s') = inflight (env s)
  /\ attached (dom s') = attached (dom s)
  /\ contentHidden (dom s') = contentHidden (dom s)
  /\ currentServiceIndex (this s') = currentServiceIndex (this s)
  /\ currentService (this s') = currentService (this s).
Proof.
  destruct s as [w d b]. destruct w, d.
  unfold run, animate, requestAnimationFrame, bind, get, ret, on_this,
    on_dom, on_env.
  cbn -[Js.ofZ].
  destruct isPaused0; [repeat split|].
  destruct (PrimFloat.leb _ _); repeat split.
Qed.

Lemma animate_next_handle (s : State) :
  rafNext (env (run animate s)) = S (rafNext (env s)).
Proof.
  destruct s as [w d b]. destruct w, d.
  unfold run, animate, requestAnimationFrame, bind, get, ret, on_this,
    on_dom, on_env.
  cbn -[Js.ofZ].
  destruct isPaused0; [reflexivity|].
  destruct (PrimFloat.leb _ _); reflexivity.
Qed.

Lemma animate_keeps_list (s : State) :
  tickerList (dom (run animate s)) = tickerList (dom s).
Proof.
  destruct s as [w d b]. destruct w, d.
  unfold run, animate, requestAnimationFrame, bind, get, ret, on_this,
    on_dom, on_env.
  cbn -[Js.ofZ].
  destruct isPaused0; [reflexivity|].
  destruct (PrimFloat.leb _ _); reflexivity.
Qed.

(** The part of [init] from [setupTicker] on. *)
Lemma init_sets_up (raw : RawOptions) (b : Browser) :
  exists s,
    (setupTicker ;; loadHeadlines ;; startAnimation ;; setInterval 300000)
      (constructed raw b) = Normal tt s
    /\ attached (dom s) = true
    /\ contentHidden (dom s) = false
    /\ currentServiceIndex (this s) = 0%nat
    /\ currentService (this s) = "sports"%string
    /\ intervals (env s) = intervals b ++ [300000]
    /\ rafPending (env s) = rafPending b ++ [rafNext b]
    /\ animationId (this s) = Some (rafNext b)
    /\ inflight (env s)
       = inflight b ++ [(endpoint (defaults raw) ++ "?service=sports")%string]
    /\ tickerList (dom s) = []
    /\ rafNext (env s) = S (rafNext b).
Proof.
  unfold bind at 1.
  unfold setupTicker, setupServiceSelector, bind, get, on_dom, on_this.
  cbn [constructed this dom env].
  unfold loadHeadlines, fetch, bind, get, on_env.
  cbn [this dom env set_currentService set_currentServiceIndex
       currentService options endpoint].
  unfold startAnimation, bind, get. cbn [this animationId truthyHandle].
  rewrite animate_total.
  match goal with
  | |- context [run animate ?st] =>
      destruct (animate_requests_frame st) as (R & A & I & F & T & H & X & C);
      pose proof (animate_keeps_list st) as L;
      pose proof (animate_next_handle st) as N
  end.
  eexists. split; [reflexivity|].
  unfold setInterval, on_env.
  cbn [this dom env intervals rafPending inflight set_intervals rafNext].
  repeat split; rewrite ?T, ?H, ?X, ?C, ?R, ?A, ?I, ?F, ?L, ?N; reflexivity.
Qed.

(** A widget that reaches [setupTicker] is live, shows the first service,
    has asked for its headlines, and has its loop and its timer running. *)
Lemma NewsTicker_live (raw : RawOptions) (fontLoads : bool) (b : Browser)
    (s : State) :
  NewsTicker raw true fontLoads b = Some s ->
  attached (dom s) = true
  /\ contentHidden (dom s) = false
  /\ currentServiceIndex (this s) = 0%nat
  /\ currentService (this s) = "sports"%string
  /\ intervals (env s) = intervals b ++ [300000]
  /\ rafPending (env s) = rafPending b ++ [rafNext b]
  /\ animationId (this s) = Some (rafNext b)
  /\ inflight (env s)
     = inflight b ++ [(endpoint (defaults raw) ++ "?service=sports")%string]
  /\ tickerList (dom s) = []
  /\ rafNext (env s) = S (rafNext b).
Proof.
  destruct (init_sets_up raw b) as (s1 & E1 & P).
  unfold NewsTicker, run, init, try_catch. cbn [andb negb].
  unfold bind at 1. unfold get at 1. cbn [this options constructed].
  destruct (fontCss (defaults raw)) as [f|].
  - destruct fontLoads; [|discriminate]. intros E. injection E as E.
    assert (Q : s = s1).
    { rewrite <- E. unfold bind at 1. unfold ret at 1. cbv beta iota.
      now rewrite E1. }
    now rewrite Q.
  - intros E. injection E as E.
    assert (Q : s = s1).
    { rewrite <- E. unfold bind at 1. unfold ret at 1. cbv beta iota.
      now rewrite E1. }
    now rewrite Q.
Qed.

(** ** Rendering *)

Lemma headlineElement_spec (h : Headline) (s : State) :
  headlineElement h s
  = Normal (mkItem (sanitizeText (source h)) (url h) (sanitizeText (title h))
                   (formatTimeAgoAt (clock (env s)) (ts h))) s.
Proof. reflexivity. Qed.

Lemma mapM_headlineElement (hs : list Headline) (s : State) :
  mapM headlineElement hs s = Normal (itemsAt (clock (env s)) hs) s.
Proof.
  induction hs as [|h hs IH]; [reflexivity|].
  cbn [mapM]. unfold bind at 1. rewrite headlineElement_spec.
  unfold bind at 1. rewrite IH. reflexivity.
Qed.

Lemma forEach_appendChild (l : list TickerItem) (s : State) :
  forEach l appendChild s
  = Normal tt (mkState (this s)
                       (set_tickerList (tickerList (dom s) ++ l) (dom s))
                       (env s)).
Proof.
  revert s. induction l as [|e l IH]; intros [w d b].
  - cbn. unfold set_tickerList. rewrite app_nil_r. destruct d; reflexivity.
  - cbn [forEach]. unfold bind, appendChild, on_dom. rewrite IH. cbn.
    unfold set_tickerList; cbn. rewrite <- app_assoc. reflexivity.
Qed.

Lemma saveToCache_spec (s : State) :
  saveToCache s
  = Normal tt (mkState (this s) (dom s) (afterSave (headlines (this s)) (env s))).
Proof.
  destruct s as [w d b]. unfold saveToCache, try_catch, bind, get, Date_now,
    setItem, afterSave, bind, get, ret, throw, on_env. cbn.
  destruct (localStorage b); reflexivity.
Qed.

Lemma renderHeadlines_empty (s : State) :
  headlines (this s) = [] -> renderHeadlines s = Normal tt s.
Proof.
  intros H. unfold renderHeadlines, bind, get. rewrite H. reflexivity.
Qed.

Lemma renderHeadlines_nonempty (s : State) :
  headlines (this s) <> [] -> renderHeadlines s = Normal tt (rendered s).
Proof.
  intros H. unfold renderHeadlines. unfold bind at 1. unfold get.
  destruct (headlines (this s)) as [|h hs] eqn:E; [congruence|].
  cbn [List.length Nat.eqb]. rewrite <- E.
  unfold bind at 1. rewrite mapM_headlineElement.
  unfold bind at 1. unfold on_dom at 1.
  unfold bind at 1. rewrite forEach_appendChild.
  unfold bind at 1. rewrite forEach_appendChild.
  unfold bind. rewrite saveToCache_spec.
  unfold on_this, rendered. destruct s as [w d b]; cbn.
  reflexivity.
Qed.

Lemma renderHeadlines_spec (s : State) :
  renderHeadlines s = Normal tt (afterRender s).
Proof.
  unfold afterRender. destruct (headlines (this s)) as [|h hs] eqn:E.
  - now apply renderHeadlines_empty.
  - apply renderHeadlines_nonempty. congruence.
Qed.

Lemma rendered_tickerList (s : State) :
  tickerList (dom (rendered s))
  = itemsAt (clock (env s)) (headlines (this s))
    ++ itemsAt (clock (env s)) (headlines (this s)).
Proof. reflexivity. Qed.

Lemma itemsAt_length (now : Z) (hs : list Headline) :
  List.length (itemsAt now hs) = List.length hs.
Proof. unfold itemsAt. apply length_map. Qed.

(** ** Fetch completion *)

Lemma loadFromCache_spec (s : State) :
  loadFromCache s
  = Normal tt match usableSnapshot s with
              | Some hs => afterRender (withHeadlines hs s)
              | None => s
              end.
Proof.
  unfold loadFromCache, try_catch, usableSnapshot.
  unfold bind at 1. unfold getItem, bind, get.
  destruct (localStorage (env s)) as [|[[|hs t]|]] eqn:E; cbn; try reflexivity.
  unfold Date_now, bind, get, ret.
  destruct (clock (env s) - t <? 3600000); [|reflexivity].
  unfold on_this. rewrite renderHeadlines_spec. destruct s; reflexivity.
Qed.

Lemma loadHeadlines_settled_rejected (r : FetchResult) (s : State) :
  rejected r = true ->
  loadHeadlines_settled r s
  = Normal tt match usableSnapshot s with
              | Some hs => afterRender (withHeadlines hs (markedOffline s))
              | None => markedOffline s
              end.
Proof.
  intros F. unfold loadHeadlines_settled, try_catch.
  assert (T : exists e,
    match r with
    | NetworkError => throw FetchError
    | HttpResponse status body =>
        if negb (ok status) then throw (HttpError status)
        else match body with
             | None => throw SyntaxError
             | Some fetched =>
                 s0 <- get ;;
                 on_this (set_headlines
                            (Js.slice0 (maxHeadlines (options (this s0))) fetched)) ;;
                 on_this (set_offlineMode false) ;;
                 on_dom (set_offlineDisplay "none") ;;
                 renderHeadlines ;;
                 now <- Date_now ;;
                 on_this (set_lastUpdate now)
             end
    end s = Thrown e s).
  { destruct r as [|status body]; cbn in F.
    - now exists FetchError.
    - destruct (ok status); cbn in *.
      + destruct body; [discriminate | now exists SyntaxError].
      + now exists (HttpError status). }
  destruct T as [e ->].
  unfold bind, on_this, on_dom. rewrite loadFromCache_spec.
  destruct s as [w d b]; reflexivity.
Qed.

Lemma fetchFailed_rejected (r : FetchResult) :
  fetchFailed r = true -> rejected r = true.
Proof. destruct r; cbn; [reflexivity|]. now intros ->. Qed.

Lemma loadHeadlines_settled_failure (r : FetchResult) (s : State) :
  fetchFailed r = true ->
  loadHeadlines_settled r s
  = Normal tt match usableSnapshot s with
              | Some hs => afterRender (withHeadlines hs (markedOffline s))
              | None => markedOffline s
              end.
Proof.
  intros F. apply loadHeadlines_settled_rejected.
  now apply fetchFailed_rejected.
Qed.

Lemma loadHeadlines_settled_success (status : Z) (fetched : list Headline)
    (s : State) :
  ok status = true ->
  loadHeadlines_settled (HttpResponse status (Some fetched)) s
  = Normal tt
      (let s1 := afterRender
                   (mkState
                      (set_offlineMode false
                         (set_headlines
                            (Js.slice0 (maxHeadlines (options (this s))) fetched)
                            (this s)))
                      (set_offlineDisplay "none" (dom s)) (env s)) in
       mkState (set_lastUpdate (clock (env s1)) (this s1)) (dom s1) (env s1)).
Proof.
  intros K. unfold loadHeadlines_settled, try_catch. rewrite K. cbn [negb].
  unfold bind, get, on_this, on_dom. rewrite renderHeadlines_spec.
  destruct s as [w d b]; reflexivity.
Qed.

Lemma usableSnapshot_fresh (s : State) (hs : list Headline) (t : Z) :
  localStorage (env s) = Storage (Some (Snapshot hs t)) ->
  clock (env s) - t < 3600000 ->
  usableSnapshot s = Some hs.
Proof.
  intros E L. unfold usableSnapshot. rewrite E.
  apply Z.ltb_lt in L. now rewrite L.
Qed.

Lemma usableSnapshot_none (s : State) :
  localStorage (env s) = Storage None
  \/ (exists hs t, localStorage (env s) = Storage (Some (Snapshot hs t))
                   /\ 3600000 <= clock (env s) - t) ->
  usableSnapshot s = None.
Proof.
  intros [E | (hs & t & E & L)]; unfold usableSnapshot; rewrite E; trivial.
  apply Z.ltb_ge in L. now rewrite L.
Qed.

Lemma afterRender_headlines (s : State) :
  headlines (this (afterRender s)) = headlines (this s).
Proof. unfold afterRender. destruct (headlines (this s)) eqn:E; cbn; auto. Qed.

Lemma afterRender_nonempty (s : State) :
  headlines (this s) <> [] -> afterRender s = rendered s.
Proof. unfold afterRender. destruct (headlines (this s)); congruence. Qed.

(** C1. When the request of [loadHeadlines] fails (network error or a status
    outside 200..299) the widget sets [offlineMode] and shows the offline
    badge. If the cache holds a snapshot younger than 3600000 ms, [headlines]
    becomes the cached list and [renderHeadlines] runs on it (for a non-empty
    list the display is the cached list rendered twice). If the cache is
    empty or the snapshot is at least one hour old, nothing else changes:
    [headlines] and the rendered items stay as they were. *)
Theorem loadHeadlines_failure_falls_back_to_cache
    (s : State) (r : FetchResult) :
  fetchFailed r = true ->
  let s' := run (loadHeadlines_settled r) s in
  let now := clock (env s) in
  offlineMode (this s') = true
  /\ offlineDisplay (dom s') = "block"%string
  /\ (forall hs t,
        localStorage (env s) = Storage (Some (Snapshot hs t)) ->
        now - t < 3600000 ->
        headlines (this s') = hs
        /\ s' = run renderHeadlines (withHeadlines hs (markedOffline s))
        /\ (hs <> [] ->
            tickerList (dom s') = itemsAt now hs ++ itemsAt now hs))
  /\ (localStorage (env s) = Storage None
      \/ (exists hs t, localStorage (env s) = Storage (Some (Snapshot hs t))
                       /\ 3600000 <= now - t) ->
      headlines (this s') = headlines (this s)
      /\ tickerList (dom s') = tickerList (dom s)
      /\ s' = markedOffline s).
Proof.
  intros F s' now. subst s'. unfold run.
  rewrite (loadHeadlines_settled_failure r s F). cbn [final].
  repeat split.
  - destruct (usableSnapshot s) as [hs|]; [|reflexivity].
    unfold afterRender. destruct hs; reflexivity.
  - destruct (usableSnapshot s) as [hs|]; [|reflexivity].
    unfold afterRender. destruct hs; reflexivity.
  - rewrite (usableSnapshot_fresh s hs t H H0).
    now rewrite afterRender_headlines.
  - rewrite (usableSnapshot_fresh s hs t H H0).
    now rewrite renderHeadlines_spec.
  - intros N. rewrite (usableSnapshot_fresh s hs t H H0).
    rewrite afterRender_nonempty by exact N. reflexivity.
  - now rewrite (usableSnapshot_none s H).
  - now rewrite (usableSnapshot_none s H).
  - now rewrite (usableSnapshot_none s H).
Qed.

Lemma loadHeadlines_failure_witness :
  fetchFailed (HttpResponse 503 None) = true
  /\ (let s := startedWidget 1800000 oldCache in
      let s' := run (loadHeadlines_settled (HttpResponse 503 None)) s in
      offlineMode (this s') = true
      /\ headlines (this s') = [headlineB 0]
      /\ List.length (tickerList (dom s')) = 2%nat)
  /\ (let s := startedWidget 5400000 oldCache in
      let s' := run (loadHeadlines_settled (HttpResponse 503 None)) s in
      offlineMode (this s') = true
      /\ headlines (this s') = []
      /\ tickerList (dom s') = []).
Proof.
  split; [reflexivity|]. split.
  - destruct (loadHeadlines_failure_falls_back_to_cache
                (startedWidget 1800000 oldCache)
                (HttpResponse 503 None) eq_refl) as (O & _ & C & _).
    destruct (C [headlineB 0] 0 eq_refl eq_refl) as (H & _ & T).
    split; [exact O|]. split; [exact H|].
    rewrite T by discriminate. reflexivity.
  - destruct (loadHeadlines_failure_falls_back_to_cache
                (startedWidget 5400000 oldCache)
                (HttpResponse 503 None) eq_refl) as (O & _ & _ & A).
    destruct A as (H & T & _).
    + right. exists [headlineB 0], 0. split; [reflexivity|]. vm_compute.
      intros G. discriminate G.
    + split; [exact O|]. split; [exact H | exact T].
Defined.

(** ** Rendering: the claims *)

(** C10. With an empty [headlines], [renderHeadlines] returns at once and
    leaves the whole state as it is: the rendered items, [currentPosition]
    and the cache. A successful fetch of an empty array therefore empties
    [headlines] but keeps the display, the position and the cache. *)
Theorem renderHeadlines_empty_is_noop (s : State) :
  (headlines (this s) = [] -> renderHeadlines s = Normal tt s)
  /\ (forall status,
        ok status = true ->
        let s' := run (loadHeadlines_settled (HttpResponse status (Some []))) s in
        headlines (this s') = []
        /\ tickerList (dom s') = tickerList (dom s)
        /\ currentPosition (this s') = currentPosition (this s)
        /\ localStorage (env s') = localStorage (env s)).
Proof.
  split.
  - apply renderHeadlines_empty.
  - intros status K s'. subst s'. unfold run.
    rewrite (loadHeadlines_settled_success status [] s K). cbn [final].
    unfold Js.slice0. rewrite firstn_nil. unfold afterRender. cbn.
    repeat split; reflexivity.
Qed.

Lemma renderHeadlines_empty_witness :
  headlines (this afterEmptyFetch) = []
  /\ renderHeadlines afterEmptyFetch = Normal tt afterEmptyFetch
  /\ List.length (tickerList (dom afterEmptyFetch)) = 2%nat.
Proof.
  split; [reflexivity|]. split.
  - exact (proj1 (renderHeadlines_empty_is_noop afterEmptyFetch) eq_refl).
  - reflexivity.
Defined.

(** C3, as stated, fails when [headlines] is empty: after a fetch of one
    headline and a later fetch of an empty array, N = 0 <= maxHeadlines but
    the display still holds the two items of the earlier render. *)
Lemma renderHeadlines_empty_keeps_old_items :
  (List.length (headlines (this afterEmptyFetch))
   <= maxHeadlines (options (this afterEmptyFetch)))%nat
  /\ List.length (tickerList (dom (run renderHeadlines afterEmptyFetch)))
     <> (2 * List.length (headlines (this afterEmptyFetch)))%nat.
Proof.
  split.
  - vm_compute. lia.
  - vm_compute. discriminate.
Qed.

(** C3, amended. For a non-empty [headlines] of length N, [renderHeadlines]
    leaves exactly 2N items: the items of the list, in order, twice. A
    fetched list longer than [maxHeadlines] is cut to its first
    [maxHeadlines] records before it is rendered. *)
Theorem renderHeadlines_duplicates (s : State) :
  (headlines (this s) <> [] ->
   let s' := run renderHeadlines s in
   let items := itemsAt (clock (env s)) (headlines (this s)) in
   tickerList (dom s') = items ++ items
   /\ List.length (tickerList (dom s'))
      = (2 * List.length (headlines (this s)))%nat)
  /\ (forall status fetched,
        ok status = true ->
        (maxHeadlines (options (this s)) < List.length fetched)%nat ->
        let s' := run (loadHeadlines_settled
                         (HttpResponse status (Some fetched))) s in
        let kept := firstn (maxHeadlines (options (this s))) fetched in
        headlines (this s') = kept
        /\ List.length (headlines (this s')) = maxHeadlines (options (this s))
        /\ (maxHeadlines (options (this s)) <> 0%nat ->
            tickerList (dom s')
            = itemsAt (clock (env s)) kept ++ itemsAt (clock (env s)) kept)).
Proof.
  split.
  - intros N s' items. subst s' items. unfold run.
    rewrite renderHeadlines_spec. cbn [final].
    rewrite afterRender_nonempty by exact N. rewrite rendered_tickerList.
    split; [reflexivity|]. rewrite length_app, itemsAt_length. lia.
  - intros status fetched K L s' kept. subst s' kept. unfold run.
    rewrite (loadHeadlines_settled_success status fetched s K). cbn [final].
    cbv zeta. cbn [this dom env set_lastUpdate headlines].
    rewrite afterRender_headlines. cbn. unfold Js.slice0.
    split; [reflexivity|]. split.
    + rewrite length_firstn. lia.
    + intros P. rewrite afterRender_nonempty.
      * reflexivity.
      * cbn. intros E. apply (f_equal (@List.length _)) in E.
        rewrite length_firstn in E. cbn in E. lia.
Qed.

Lemma renderHeadlines_duplicates_witness :
  let s := dispatch (FetchSettled 0
                       (HttpResponse 200 (Some [headlineA 0; headlineB 0])))
                    (freshWidget 90000) in
  headlines (this s) <> []
  /\ tickerList (dom (run renderHeadlines s))
     = [ mkItem "A" "u1" "T1" "1m ago"; mkItem "B" "u2" "T2 &lt;live&gt;" "1m ago";
         mkItem "A" "u1" "T1" "1m ago"; mkItem "B" "u2" "T2 &lt;live&gt;" "1m ago" ].
Proof.
  intros s.
  assert (N : headlines (this s) <> []) by discriminate.
  split; [exact N|].
  destruct (proj1 (renderHeadlines_duplicates s) N) as [E _].
  rewrite E. reflexivity.
Defined.

(** ** The service selector *)

Ltac open_state s :=
  let w := fresh "w" in
  let d := fresh "d" in
  let b := fresh "b" in
  destruct s as [w d b]; destruct w, d; cbn in *.

Lemma next_lt (i : nat) : (next i < 5)%nat.
Proof. unfold next. apply Nat.mod_upper_bound. discriminate. Qed.

Lemma next_five (i : nat) : (i < 5)%nat -> iter 5 next i = i.
Proof.
  intros L. do 5 (destruct i as [|i]; [reflexivity|]). lia.
Qed.

Lemma entry_exists (i : nat) :
  (i < 5)%nat -> exists e, nth_error serviceCycle i = Some e.
Proof.
  intros L. destruct (nth_error serviceCycle i) as [e|] eqn:E; [now exists e|].
  apply nth_error_None in E. cbn in E. lia.
Qed.

(** One call of [cycleToNextService] on a live widget. *)
Lemma cycleToNextService_live (w : Widget) (d : Dom) (b : Browser)
    (e : ServiceEntry) :
  attached d = true ->
  nth_error serviceCycle (next (currentServiceIndex w)) = Some e ->
  exists b',
    cycleToNextService (mkState w d b)
    = Normal tt
        (mkState (set_currentService (service e)
                    (set_currentServiceIndex (next (currentServiceIndex w)) w))
                 (set_btnText (label e) d) b').
Proof.
  intros A E. unfold cycleToNextService.
  change (fun w0 : Widget =>
            set_currentServiceIndex
              ((currentServiceIndex w0 + 1) mod List.length serviceCycle)%nat w0)
    with (fun w0 : Widget =>
            set_currentServiceIndex (next (currentServiceIndex w0)) w0).
  unfold bind at 1. unfold on_this at 1. cbn [this dom env].
  unfold bind at 1. unfold get.
  cbn [this dom env set_currentServiceIndex currentServiceIndex].
  rewrite E, A.
  unfold bind, on_dom, on_this, loadHeadlines, bind, get, fetch, on_env.
  cbn [this dom env]. eexists. reflexivity.
Qed.

Lemma cycleToNextService_step (s : State) :
  attached (dom s) = true ->
  let s' := run cycleToNextService s in
  currentServiceIndex (this s') = next (currentServiceIndex (this s))
  /\ option_map service (nth_error serviceCycle (currentServiceIndex (this s')))
     = Some (currentService (this s'))
  /\ dom s' = set_btnText (btnText (dom s')) (dom s).
Proof.
  intros A s'. subst s'. destruct s as [w d b]. cbn [this dom env] in *.
  destruct (entry_exists (next (currentServiceIndex w)) (next_lt _)) as [e E].
  destruct (cycleToNextService_live w d b e A E) as [b' R].
  unfold run. rewrite R.
  cbn [final this dom env currentServiceIndex currentService
       set_currentService set_currentServiceIndex].
  repeat split. rewrite E. reflexivity.
Qed.

Lemma cycleToNextService_iter (n : nat) (s : State) :
  attached (dom s) = true ->
  let s' := iter n (run cycleToNextService) s in
  currentServiceIndex (this s') = iter n next (currentServiceIndex (this s))
  /\ attached (dom s') = true
  /\ contentHidden (dom s') = contentHidden (dom s)
  /\ (n <> 0%nat ->
      option_map service (nth_error serviceCycle (currentServiceIndex (this s')))
      = Some (currentService (this s'))).
Proof.
  revert s. induction n as [|n IH]; intros s A.
  - cbn. repeat split; auto. congruence.
  - cbn [iter]. destruct (cycleToNextService_step s A) as (I & C & D).
    assert (A' : attached (dom (run cycleToNextService s)) = true)
      by (rewrite D; destruct (dom s); cbn in *; exact A).
    destruct (IH _ A') as (I' & A'' & H' & C').
    repeat split.
    + rewrite I', I. reflexivity.
    + exact A''.
    + rewrite H', D. destruct (dom s); reflexivity.
    + intros _. destruct n as [|n]; [exact C | apply C'; discriminate].
Qed.

Lemma click_advances (s : State) :
  attached (dom s) = true ->
  contentHidden (dom s) = false ->
  dispatch Click s = run cycleToNextService s.
Proof.
  intros A H. unfold dispatch. rewrite A.
  unfold run at 1, onClick, bind, get. rewrite A, H. reflexivity.
Qed.

Lemma click_iter (n : nat) (s : State) :
  attached (dom s) = true ->
  contentHidden (dom s) = false ->
  iter n (dispatch Click) s = iter n (run cycleToNextService) s.
Proof.
  revert s. induction n as [|n IH]; intros s A H; [reflexivity|].
  cbn [iter]. rewrite (click_advances s A H).
  destruct (cycleToNextService_iter 1 s A) as (_ & A' & H' & _).
  cbn [iter] in A', H'. apply IH; congruence.
Qed.

(** C4. The five entries form a cycle: from any index i in 0..4 of a live
    widget, one advance moves the index to (i + 1) mod 5, and five advances
    (five calls of [cycleToNextService], or five clicks while the content is
    shown) bring [currentServiceIndex] back to i and [currentService] back to
    the id of entry i, which is the id the widget started from. *)
Theorem service_cycle_closes (s : State) (i : nat) :
  (i < 5)%nat ->
  attached (dom s) = true ->
  currentServiceIndex (this s) = i ->
  let s5 := iter 5 (run cycleToNextService) s in
  currentServiceIndex (this (run cycleToNextService s)) = ((i + 1) mod 5)%nat
  /\ currentServiceIndex (this s5) = i
  /\ option_map service (nth_error serviceCycle i)
     = Some (currentService (this s5))
  /\ (selectorConsistent s -> currentService (this s5) = currentService (this s))
  /\ (contentHidden (dom s) = false -> iter 5 (dispatch Click) s = s5).
Proof.
  intros L A I s5. subst s5.
  destruct (cycleToNextService_step s A) as (I1 & _ & _).
  destruct (cycleToNextService_iter 5 s A) as (I5 & _ & _ & C5).
  rewrite I, (next_five i L) in I5. rewrite I5 in C5.
  specialize (C5 ltac:(discriminate)).
  repeat split.
  - rewrite I1, I. reflexivity.
  - exact I5.
  - exact C5.
  - unfold selectorConsistent. rewrite I, C5. congruence.
  - intros H. now apply click_iter.
Qed.

Lemma service_cycle_closes_witness :
  let s := dispatchAll [Click; Click] (freshWidget 0) in
  (2 < 5)%nat
  /\ attached (dom s) = true
  /\ currentServiceIndex (this s) = 2%nat
  /\ currentService (this s) = "news"%string
  /\ currentServiceIndex (this (iter 5 (run cycleToNextService) s)) = 2%nat
  /\ currentService (this (iter 5 (run cycleToNextService) s)) = "news"%string.
Proof.
  intros s.
  assert (L : (2 < 5)%nat) by lia.
  destruct (service_cycle_closes s 2 L eq_refl eq_refl) as (_ & I & _ & C & _).
  split; [exact L|]. do 3 (split; [reflexivity|]). split; [exact I|].
  rewrite (C eq_refl). reflexivity.
Defined.

(** The two listeners, each taken alone. The click listener, run while the
    content is hidden, leaves the object and the browser as they are and
    shows the content again; the double-click listener never writes
    [currentServiceIndex]. This holds in every state, also when a listener
    throws. *)
Lemma listeners_keep_service_index (s : State) :
  (contentHidden (dom s) = true ->
   currentServiceIndex (this (run onClick s)) = currentServiceIndex (this s)
   /\ currentServiceIndex (this (dispatch Click s))
      = currentServiceIndex (this s)
   /\ this (run onClick s) = this s
   /\ env (run onClick s) = env s
   /\ (attached (dom s) = true -> contentHidden (dom (run onClick s)) = false))
  /\ currentServiceIndex (this (run onDblClick s))
     = currentServiceIndex (this s)
  /\ currentServiceIndex (this (dispatch DblClick s))
     = currentServiceIndex (this s)
  /\ this (run onDblClick s) = this s.
Proof.
  open_state s. unfold dispatch, run, onDblClick, onClick,
    toggleTickerVisibility, bind, get, on_dom, throw. cbn.
  destruct attached0, contentHidden0; cbn;
    repeat split; intros; try reflexivity; try discriminate;
    destruct (nth_error serviceCycle currentServiceIndex0); reflexivity.
Qed.

(** The click listener is the toggle while the content is hidden. *)
Lemma click_shows (s : State) :
  attached (dom s) = true ->
  contentHidden (dom s) = true ->
  dispatch Click s = run toggleTickerVisibility s.
Proof.
  intros A H. unfold dispatch. rewrite A.
  unfold run at 1, onClick, bind, get. rewrite A, H. reflexivity.
Qed.

(** On a live widget the toggle flips the hidden class and leaves the
    object alone, also when it throws for want of a label. *)
Lemma toggle_effect (s : State) :
  attached (dom s) = true ->
  this (run toggleTickerVisibility s) = this s
  /\ attached (dom (run toggleTickerVisibility s)) = true
  /\ contentHidden (dom (run toggleTickerVisibility s))
     = negb (contentHidden (dom s)).
Proof.
  intros A. destruct s as [w d b]. destruct d. cbn in A. subst.
  unfold run, toggleTickerVisibility, bind, get, on_dom, throw.
  cbn -[nth_error].
  destruct contentHidden0; cbn -[nth_error]; [|repeat split].
  destruct (nth_error _ _); repeat split.
Qed.

Lemma next_moves (i : nat) :
  (i < 5)%nat -> next i <> i /\ next (next i) <> i.
Proof.
  intros L. do 5 (destruct i as [|i]; [split; vm_compute; discriminate|]).
  lia.
Qed.

(** C5 does not hold of the code. The claim is right about a single click
    on hidden content, and the double-click listener alone does not touch
    the selection. But both listeners sit on the same button, and a double
    activation reaches it as click, click, double click: on a live widget
    the selection moves by two services when the content was shown and by
    one when it was hidden, and the content ends up hidden either way. *)
Theorem double_activation_moves_selection (s : State) :
  attached (dom s) = true ->
  (currentServiceIndex (this s) < 5)%nat ->
  let s' := dispatchAll doubleActivation s in
  currentServiceIndex (this s')
  = (if contentHidden (dom s)
     then next (currentServiceIndex (this s))
     else next (next (currentServiceIndex (this s))))
  /\ currentServiceIndex (this s') <> currentServiceIndex (this s)
  /\ contentHidden (dom s') = true.
Proof.
  intros A L s'. subst s'. unfold doubleActivation, dispatchAll.
  cbn [fold_left].
  destruct (next_moves _ L) as [M1 M2].
  assert (K : forall t, attached (dom t) = true ->
                        contentHidden (dom t) = false ->
                        let t' := dispatch Click t in
                        currentServiceIndex (this t')
                        = next (currentServiceIndex (this t))
                        /\ attached (dom t') = true
                        /\ contentHidden (dom t') = false).
  { intros t At Ht. cbv zeta. rewrite (click_advances t At Ht).
    destruct (cycleToNextService_step t At) as (I & _ & D).
    rewrite I, D. destruct (dom t); cbn in *. now repeat split. }
  assert (T : forall t, attached (dom t) = true ->
                        let t' := dispatch DblClick t in
                        currentServiceIndex (this t')
                        = currentServiceIndex (this t)
                        /\ contentHidden (dom t')
                           = negb (contentHidden (dom t))).
  { intros t At. cbv zeta. unfold dispatch. rewrite At.
    destruct (toggle_effect t At) as (E & _ & H).
    unfold onDblClick. rewrite E, H. now split. }
  destruct (contentHidden (dom s)) eqn:H.
  - rewrite (click_shows s A H).
    destruct (toggle_effect s A) as (E1 & A1 & H1). rewrite H in H1.
    destruct (K _ A1 H1) as (I2 & A2 & H2).
    destruct (T _ A2) as (I3 & H3).
    rewrite I3, I2, E1, H3, H2. now repeat split.
  - destruct (K s A H) as (I1 & A1 & H1).
    destruct (K _ A1 H1) as (I2 & A2 & H2).
    destruct (T _ A2) as (I3 & H3).
    rewrite I3, I2, I1, H3, H2. now repeat split.
Qed.

Lemma double_activation_moves_selection_witness :
  let s := freshWidget 0 in
  let hidden := dispatch DblClick s in
  attached (dom s) = true
  /\ (currentServiceIndex (this s) < 5)%nat
  /\ currentService (this s) = "sports"%string
  /\ currentServiceIndex (this (dispatchAll doubleActivation s)) = 2%nat
  /\ currentService (this (dispatchAll doubleActivation s)) = "news"%string
  /\ contentHidden (dom hidden) = true
  /\ currentServiceIndex (this (dispatchAll doubleActivation hidden)) = 1%nat
  /\ contentHidden (dom (dispatchAll doubleActivation hidden)) = true.
Proof.
  intros s hidden.
  assert (A : attached (dom s) = true) by reflexivity.
  assert (L : (currentServiceIndex (this s) < 5)%nat) by (vm_compute; lia).
  assert (A' : attached (dom hidden) = true) by reflexivity.
  assert (L' : (currentServiceIndex (this hidden) < 5)%nat)
    by (vm_compute; lia).
  destruct (double_activation_moves_selection s A L) as (I & _ & _).
  destruct (double_activation_moves_selection hidden A' L')
    as (I' & _ & H').
  split; [exact A|]. split; [exact L|]. split; [reflexivity|].
  split; [rewrite I; reflexivity|]. split; [reflexivity|].
  split; [reflexivity|]. split; [rewrite I'; reflexivity | exact H'].
Defined.

(** ** The visibility toggle *)

(** C8. On a live widget [toggleTickerVisibility] flips the one visibility
    bit. The object ([headlines], [currentServiceIndex], [isPaused],
    [animationId], [currentPosition], ...) and the browser (the requested
    animation frame, the timers, the cache) are left as they are, and so are
    the rendered items; only the label and the borders follow the bit. The
    animation step does not look at the bit: stepping and toggling commute. *)
Theorem toggleTickerVisibility_flips_one_bit (s : State) :
  attached (dom s) = true ->
  let s' := run toggleTickerVisibility s in
  contentHidden (dom s') = negb (contentHidden (dom s))
  /\ this s' = this s
  /\ env s' = env s
  /\ tickerList (dom s') = tickerList (dom s)
  /\ trackTransform (dom s') = trackTransform (dom s)
  /\ pausedClass (dom s') = pausedClass (dom s)
  /\ attached (dom s') = true
  /\ run animate s' = run toggleTickerVisibility (run animate s).
Proof.
  intros A s'. subst s'. open_state s. subst attached0.
  unfold run, toggleTickerVisibility, animate, requestAnimationFrame,
    bind, get, ret, on_dom, on_this, on_env, throw.
  cbn -[Js.ofZ].
  destruct (nth_error serviceCycle currentServiceIndex0) eqn:E;
    destruct contentHidden0, isPaused0;
    cbn -[Js.ofZ nth_error]; rewrite ?E;
    try destruct (PrimFloat.leb _ _);
    cbn -[Js.ofZ nth_error]; rewrite ?E;
    repeat split.
Qed.

Lemma toggleTickerVisibility_witness :
  let s := dispatch (FetchSettled 0 (HttpResponse 200 (Some [headlineA 0])))
                    (freshWidget 0) in
  attached (dom s) = true
  /\ contentHidden (dom s) = false
  /\ contentHidden (dom (run toggleTickerVisibility s)) = true
  /\ this (run toggleTickerVisibility s) = this s
  /\ rafPending (env (run toggleTickerVisibility s)) = [1%nat].
Proof.
  intros s.
  destruct (toggleTickerVisibility_flips_one_bit s eq_refl)
    as (V & T & E & _).
  do 2 (split; [reflexivity|]). split; [rewrite V; reflexivity|].
  split; [exact T|]. rewrite E. reflexivity.
Defined.

(** ** The animation step *)

Lemma animate_paused (s : State) :
  isPaused (this s) = true ->
  run animate s
  = mkState (set_animationId (Some (rafNext (env s))) (this s)) (dom s)
            (set_rafNext (S (rafNext (env s)))
               (set_rafPending (rafPending (env s) ++ [rafNext (env s)])
                  (env s))).
Proof.
  intros P. unfold run, animate, bind, get. rewrite P.
  destruct s as [w d b]. reflexivity.
Qed.





(** A display refresh runs the step the loop has requested. *)
Lemma frame_runs_animate (s : State) (id : nat) :
  rafPending (env s) = [id] ->
  dispatch Frame s = run animate (run (on_env (set_rafPending [])) s).
Proof. intros R. unfold dispatch. rewrite R. reflexivity. Qed.




(** ** Relative age *)

Lemma formatTimeAgo_spec (timestamp : Z) (s : State) :
  formatTimeAgo timestamp s
  = Normal (formatTimeAgoAt (clock (env s)) timestamp) s.
Proof. reflexivity. Qed.

(** C6. For a timestamp not after the current time, [formatTimeAgo] returns
    "now" below one minute, the whole minutes followed by "m ago" below
    sixty minutes, the whole hours followed by "h ago" below twenty-four
    hours, and the whole days followed by "d ago" from there on. In
    particular ages of 0, 90000, 7200000 and 172800000 ms read "now",
    "1m ago", "2h ago" and "2d ago". *)
Theorem formatTimeAgo_thresholds (s : State) (timestamp : Z) :
  timestamp <= clock (env s) ->
  let now := clock (env s) in
  let age := now - timestamp in
  (age < 60000 -> formatTimeAgo timestamp s = Normal "now"%string s)
  /\ (60000 <= age < 3600000 ->
      formatTimeAgo timestamp s
      = Normal (Js.toString (age / 60000) ++ "m ago")%string s)
  /\ (3600000 <= age < 86400000 ->
      formatTimeAgo timestamp s
      = Normal (Js.toString (age / 3600000) ++ "h ago")%string s)
  /\ (86400000 <= age ->
      formatTimeAgo timestamp s
      = Normal (Js.toString (age / 86400000) ++ "d ago")%string s)
  /\ formatTimeAgo now s = Normal "now"%string s
  /\ formatTimeAgo (now - 90000) s = Normal "1m ago"%string s
  /\ formatTimeAgo (now - 7200000) s = Normal "2h ago"%string s
  /\ formatTimeAgo (now - 172800000) s = Normal "2d ago"%string s.
Proof.
  intros L now age. subst age now. rewrite !formatTimeAgo_spec.
  unfold formatTimeAgoAt, Js.floorDiv.
  set (now := clock (env s)) in *. clearbody now.
  repeat split.
  - intros H.
    assert (E : ((now - timestamp) / 60000 <? 1) = true)
      by (apply Z.ltb_lt; Z.div_mod_to_equations; lia).
    now rewrite E.
  - intros H.
    assert (E1 : ((now - timestamp) / 60000 <? 1) = false)
      by (apply Z.ltb_ge; Z.div_mod_to_equations; lia).
    assert (E2 : ((now - timestamp) / 60000 <? 60) = true)
      by (apply Z.ltb_lt; Z.div_mod_to_equations; lia).
    now rewrite E1, E2.
  - intros H.
    assert (E1 : ((now - timestamp) / 60000 <? 1) = false)
      by (apply Z.ltb_ge; Z.div_mod_to_equations; lia).
    assert (E2 : ((now - timestamp) / 60000 <? 60) = false)
      by (apply Z.ltb_ge; Z.div_mod_to_equations; lia).
    assert (E3 : ((now - timestamp) / 3600000 <? 24) = true)
      by (apply Z.ltb_lt; Z.div_mod_to_equations; lia).
    now rewrite E1, E2, E3.
  - intros H.
    assert (E1 : ((now - timestamp) / 60000 <? 1) = false)
      by (apply Z.ltb_ge; Z.div_mod_to_equations; lia).
    assert (E2 : ((now - timestamp) / 60000 <? 60) = false)
      by (apply Z.ltb_ge; Z.div_mod_to_equations; lia).
    assert (E3 : ((now - timestamp) / 3600000 <? 24) = false)
      by (apply Z.ltb_ge; Z.div_mod_to_equations; lia).
    now rewrite E1, E2, E3.
  - replace (now - now) with 0 by lia. reflexivity.
  - replace (now - (now - 90000)) with 90000 by lia. reflexivity.
  - replace (now - (now - 7200000)) with 7200000 by lia. reflexivity.
  - replace (now - (now - 172800000)) with 172800000 by lia. reflexivity.
Qed.

Lemma formatTimeAgo_thresholds_witness :
  let s := freshWidget 5000000 in
  1000000 <= clock (env s)
  /\ 3600000 <= clock (env s) - 1000000 < 86400000
  /\ formatTimeAgo 1000000 s = Normal "1h ago"%string s.
Proof.
  intros s.
  assert (L : 1000000 <= clock (env s)) by (vm_compute; discriminate).
  assert (A : 3600000 <= clock (env s) - 1000000 < 86400000)
    by (vm_compute; split; [discriminate | reflexivity]).
  split; [exact L|]. split; [exact A|].
  destruct (formatTimeAgo_thresholds s 1000000 L) as (_ & _ & H & _).
  rewrite (H A). reflexivity.
Defined.

(** ** The query filter of the news endpoint *)






(** ** Tear-down *)

Lemma afterRender_scheduled (s : State) :
  scheduled (afterRender s) = scheduled s.
Proof.
  unfold afterRender, scheduled, rendered, afterSave.
  destruct (headlines (this s)); [reflexivity|]. cbn.
  destruct s as [w d b]; destruct w, d; cbn.
  destruct (localStorage b); reflexivity.
Qed.

Lemma loadHeadlines_settled_scheduled (r : FetchResult) (s : State) :
  scheduled (run (loadHeadlines_settled r) s) = scheduled s.
Proof.
  unfold run. destruct (rejected r) eqn:R.
  - rewrite (loadHeadlines_settled_rejected r s R). cbn [final].
    destruct (usableSnapshot s);
      [rewrite afterRender_scheduled|];
      destruct s as [w d b]; destruct w, d; reflexivity.
  - destruct r as [|status [fetched|]]; cbn in R; try discriminate.
    + apply orb_false_elim in R. destruct R as [R _].
      apply negb_false_iff in R.
      rewrite (loadHeadlines_settled_success status fetched s R).
      cbn [final]. cbv zeta.
      match goal with
      | |- scheduled (mkState _ (dom (afterRender ?st)) _) = _ =>
          transitivity (scheduled (afterRender st));
          [ destruct (afterRender st) as [w d b]; destruct w; reflexivity
          | rewrite afterRender_scheduled;
            destruct s as [w d b]; destruct w, d; reflexivity ]
      end.
    + rewrite orb_true_r in R. discriminate.
Qed.

Lemma loadHeadlines_scheduled (s : State) :
  scheduled (run loadHeadlines s) = scheduled s.
Proof. reflexivity. Qed.

Lemma loadHeadlines_issues_request (s : State) :
  exists request,
    inflight (env (run loadHeadlines s)) = inflight (env s) ++ [request].
Proof. eexists. reflexivity. Qed.

Lemma onClick_scheduled (s : State) : scheduled (run onClick s) = scheduled s.
Proof.
  open_state s.
  unfold run, onClick, toggleTickerVisibility, cycleToNextService,
    loadHeadlines, fetch, bind, get, on_dom, on_this, on_env, throw.
  cbn -[Nat.modulo nth_error].
  destruct attached0, contentHidden0; cbn -[Nat.modulo nth_error];
    try reflexivity; destruct (nth_error _ _); reflexivity.
Qed.

Lemma toggle_scheduled (s : State) :
  scheduled (run toggleTickerVisibility s) = scheduled s.
Proof.
  open_state s.
  unfold run, toggleTickerVisibility, bind, get, on_dom, throw. cbn.
  destruct attached0, contentHidden0; cbn;
    try reflexivity; destruct (nth_error _ _); reflexivity.
Qed.

(** Once no animation frame is requested, no event requests one again. *)
Lemma dispatch_keeps_no_frame (e : Event) (s : State) :
  rafPending (env s) = [] -> rafPending (env (dispatch e s)) = [].
Proof.
  intros R.
  assert (K : forall s', scheduled s' = scheduled s ->
                         rafPending (env s') = []).
  { intros s' E. unfold scheduled in E. injection E as E _ _ _ _.
    congruence. }
  destruct e; unfold dispatch.
  - rewrite R. reflexivity.
  - destruct (nth_error _ _); [|exact R]. apply K, loadHeadlines_scheduled.
  - destruct (nth_error _ _); [|exact R]. unfold run, bind, on_env.
    apply K.
    etransitivity; [apply (loadHeadlines_settled_scheduled r)|reflexivity].
  - destruct (attached (dom s)); [|exact R]. apply K, onClick_scheduled.
  - destruct (attached (dom s)); [|exact R]. apply K, toggle_scheduled.
  - destruct (hoverListeners (dom s)); exact R.
  - destruct (hoverListeners (dom s)); exact R.
  - exact R.
  - exact R.
  - unfold run, destroy, cancelAnimationFrame, bind, get, on_env, on_dom.
    destruct (truthyHandle _); [destruct (animationId _)|]; cbn;
      rewrite R; reflexivity.
  - exact R.
  - apply K, loadHeadlines_scheduled.
Qed.

Lemma dispatchAll_keeps_no_frame (es : list Event) (s : State) :
  rafPending (env s) = [] -> rafPending (env (dispatchAll es s)) = [].
Proof.
  revert s. induction es as [|e es IH]; intros s R; [exact R|].
  cbn. apply IH. now apply dispatch_keeps_no_frame.
Qed.

(** What [destroy] does achieve: on a widget whose loop is running it
    cancels the requested frame, and from then on a display refresh runs no
    animation step, whatever happens in between. *)
Lemma destroy_stops_animation (s : State) (es : list Event) :
  loopRunning s ->
  let s' := dispatchAll es (dispatch Destroy s) in
  rafPending (env (dispatch Destroy s)) = []
  /\ rafPending (env s') = []
  /\ this (dispatch Frame s') = this s'
  /\ dom (dispatch Frame s') = dom s'.
Proof.
  intros (id & N & A & R) s'.
  assert (D : rafPending (env (dispatch Destroy s)) = []).
  { unfold dispatch, run, destroy, cancelAnimationFrame, bind, get, on_env,
      on_dom. rewrite A. cbn [truthyHandle].
    apply Nat.eqb_neq in N. rewrite N. cbn. rewrite R. cbn.
    now rewrite Nat.eqb_refl. }
  assert (D' : rafPending (env s') = [])
    by (subst s'; now apply dispatchAll_keeps_no_frame).
  repeat split; trivial; unfold dispatch; rewrite D'; reflexivity.
Qed.

Lemma freshWidget_loopRunning (now : Z) : loopRunning (freshWidget now).
Proof. exists 1%nat. repeat split. discriminate. Qed.

(** ** Reachable states *)

Lemma wellFormed_same (s s' : State) :
  currentServiceIndex (this s') = currentServiceIndex (this s) ->
  currentService (this s') = currentService (this s) ->
  tickerList (dom s') = tickerList (dom s) ->
  wellFormed s -> wellFormed s'.
Proof.
  unfold wellFormed, selectorConsistent. intros -> -> ->. trivial.
Qed.

Lemma wellFormed_afterRender (s : State) :
  wellFormed s -> wellFormed (afterRender s).
Proof.
  unfold afterRender. destruct (headlines (this s)) eqn:E; [trivial|].
  intros (I & C & _). repeat split.
  - destruct s as [w d b]; destruct w; exact I.
  - destruct s as [w d b]; destruct w; exact C.
  - rewrite rendered_tickerList. eexists. reflexivity.
Qed.

Lemma wellFormed_settled (r : FetchResult) (s : State) :
  wellFormed s -> wellFormed (run (loadHeadlines_settled r) s).
Proof.
  intros W. unfold run. destruct (rejected r) eqn:R.
  - rewrite (loadHeadlines_settled_rejected r s R). cbn [final].
    assert (W' : wellFormed (markedOffline s)).
    { revert W. apply wellFormed_same; destruct s as [w d b];
        destruct w, d; reflexivity. }
    destruct (usableSnapshot s) as [hs|]; [|exact W'].
    apply wellFormed_afterRender. revert W'.
    apply wellFormed_same; destruct s as [w d b]; destruct w, d; reflexivity.
  - destruct r as [|status [fetched|]]; cbn in R; try discriminate.
    + apply orb_false_elim in R. destruct R as [R _].
      apply negb_false_iff in R.
      rewrite (loadHeadlines_settled_success status fetched s R).
      cbn [final]. cbv zeta.
      match goal with
      | |- wellFormed (mkState _ (dom (afterRender ?st)) _) =>
          assert (W' : wellFormed (afterRender st))
      end.
      { apply wellFormed_afterRender. revert W.
        apply wellFormed_same; destruct s as [w d b]; destruct w, d;
          reflexivity. }
      revert W'. apply wellFormed_same;
        match goal with
        | |- context [afterRender ?st] => destruct (afterRender st) as [w d b]
        end; destruct w; reflexivity.
    + rewrite orb_true_r in R. discriminate.
Qed.

Lemma wellFormed_cycle (s : State) :
  attached (dom s) = true ->
  wellFormed s -> wellFormed (run cycleToNextService s).
Proof.
  intros A (_ & _ & D).
  destruct (cycleToNextService_step s A) as (I & C & E).
  repeat split.
  - rewrite I. apply next_lt.
  - exact C.
  - rewrite E. destruct (dom s); exact D.
Qed.

Lemma wellFormed_toggle (s : State) :
  wellFormed s -> wellFormed (run toggleTickerVisibility s).
Proof.
  apply wellFormed_same; open_state s;
    unfold run, toggleTickerVisibility, bind, get, on_dom, throw; cbn;
    destruct attached0, contentHidden0; cbn; try reflexivity;
    destruct (nth_error _ _); reflexivity.
Qed.

Lemma wellFormed_frames (ids : list nat) (s : State) :
  wellFormed s ->
  wellFormed (fold_left (fun st _ => run animate st) ids s).
Proof.
  revert s. induction ids as [|id ids IH]; intros s W; [exact W|].
  cbn [fold_left]. apply IH. revert W.
  destruct (animate_requests_frame s) as (_ & _ & _ & _ & _ & _ & I & C).
  apply wellFormed_same; [exact I | exact C | apply animate_keeps_list].
Qed.

Lemma wellFormed_dispatch (e : Event) (s : State) :
  wellFormed s -> wellFormed (dispatch e s).
Proof.
  intros W. destruct e; unfold dispatch.
  - apply wellFormed_frames. revert W.
    apply wellFormed_same; destruct s as [w d b]; reflexivity.
  - destruct (nth_error _ _); [|exact W]. revert W.
    apply wellFormed_same; reflexivity.
  - destruct (nth_error _ _); [|exact W]. unfold run, bind, on_env.
    apply (wellFormed_settled r (mkState _ _ _)). revert W.
    apply wellFormed_same; reflexivity.
  - destruct (attached (dom s)) eqn:A; [|exact W].
    unfold run, onClick, bind, get. rewrite A. cbn [negb].
    destruct (contentHidden (dom s)).
    + now apply wellFormed_toggle.
    + now apply wellFormed_cycle.
  - destruct (attached (dom s)); [|exact W]. now apply wellFormed_toggle.
  - destruct (hoverListeners (dom s)); [|exact W]. revert W.
    apply wellFormed_same; reflexivity.
  - destruct (hoverListeners (dom s)); [|exact W]. revert W.
    apply wellFormed_same; reflexivity.
  - revert W. apply wellFormed_same; reflexivity.
  - revert W. apply wellFormed_same; reflexivity.
  - revert W. apply wellFormed_same;
      unfold run, destroy, cancelAnimationFrame, bind, get, on_env, on_dom;
      (destruct (truthyHandle _); [destruct (animationId _)|]); reflexivity.
  - revert W. apply wellFormed_same; reflexivity.
  - revert W. apply wellFormed_same; reflexivity.
Qed.

(** Every state of a widget has its index in 0..4, its [currentService]
    equal to the id at that index, and a display made of two copies of one
    list. *)
Lemma reachable_wellFormed (s : State) : reachable s -> wellFormed s.
Proof.
  induction 1 as [raw fontLoads now store s N | e s _ IH].
  - destruct (NewsTicker_live raw fontLoads _ s N)
      as (_ & _ & I & C & _ & _ & _ & _ & L & _).
    unfold wellFormed, selectorConsistent. rewrite I, C, L.
    repeat split; [lia|]. now exists [].
  - now apply wellFormed_dispatch.
Qed.

Lemma timersRunning_same (s s' : State) :
  scheduled s' = scheduled s -> timersRunning s -> timersRunning s'.
Proof.
  unfold scheduled, timersRunning, loopRunning.
  intros E. injection E as -> -> -> -> ->. trivial.
Qed.

Lemma timersRunning_frame (s : State) :
  timersRunning s -> timersRunning (dispatch Frame s).
Proof.
  intros (I & N & L). destruct (attached (dom s)) eqn:A.
  - destruct L as (id & _ & _ & R).
    rewrite (frame_runs_animate s id R).
    set (s0 := run (on_env (set_rafPending [])) s).
    destruct (animate_requests_frame s0) as (R' & A' & I' & _ & T & _).
    pose proof (animate_next_handle s0) as X.
    assert (E0 : rafNext (env s0) = rafNext (env s)
                 /\ intervals (env s0) = intervals (env s)
                 /\ attached (dom s0) = attached (dom s)
                 /\ rafPending (env s0) = [])
      by (subst s0; destruct s as [w d b]; repeat split).
    destruct E0 as (E1 & E2 & E3 & E4).
    unfold timersRunning. rewrite I', E2, X, T, E3, A.
    split; [exact I|]. split; [discriminate|].
    exists (rafNext (env s)). rewrite A', R', E4, E1. repeat split; trivial.
  - unfold dispatch. rewrite L. cbn [fold_left].
    unfold timersRunning. destruct s as [w d b]. cbn in *.
    rewrite A. repeat split; trivial.
Qed.

Lemma timersRunning_destroy (s : State) :
  timersRunning s -> timersRunning (dispatch Destroy s).
Proof.
  intros (I & N & L). unfold timersRunning, dispatch, run, destroy,
    cancelAnimationFrame, bind, get, on_env, on_dom.
  destruct (attached (dom s)) eqn:A.
  - destruct L as (id & Z0 & Y & R). rewrite Y. cbn [truthyHandle].
    apply Nat.eqb_neq in Z0. rewrite Z0. cbn. rewrite R. cbn.
    rewrite Nat.eqb_refl. cbn. destruct (dom s); cbn. repeat split; trivial.
  - destruct (truthyHandle _); [destruct (animationId _)|]; cbn;
      rewrite ?L; destruct (dom s); cbn; repeat split; trivial.
Qed.

Lemma timersRunning_dispatch (e : Event) (s : State) :
  timersRunning s -> timersRunning (dispatch e s).
Proof.
  intros W. destruct e; try (now apply timersRunning_frame);
    try (now apply timersRunning_destroy); unfold dispatch.
  - destruct (nth_error _ _); [|exact W]. revert W.
    apply timersRunning_same; reflexivity.
  - destruct (nth_error _ _); [|exact W]. unfold run, bind, on_env.
    revert W. apply timersRunning_same.
    etransitivity; [apply (loadHeadlines_settled_scheduled r)|reflexivity].
  - destruct (attached (dom s)); [|exact W]. revert W.
    apply timersRunning_same, onClick_scheduled.
  - destruct (attached (dom s)); [|exact W]. revert W.
    apply timersRunning_same, toggle_scheduled.
  - destruct (hoverListeners (dom s)); [|exact W]. revert W.
    apply timersRunning_same. destruct s as [x y z]; destruct x, y; reflexivity.
  - destruct (hoverListeners (dom s)); [|exact W]. revert W.
    apply timersRunning_same. destruct s as [x y z]; destruct x, y; reflexivity.
  - revert W. apply timersRunning_same.
    destruct s as [x y z]; destruct x, y; reflexivity.
  - revert W. apply timersRunning_same; reflexivity.
  - revert W. apply timersRunning_same.
    destruct s as [x y z]; destruct x, y; reflexivity.
  - revert W. apply timersRunning_same; reflexivity.
Qed.

(** In every state of a widget the refresh timer of [init] is running, also
    after [destroy]; the animation loop runs exactly until [destroy]. *)
Lemma reachable_timersRunning (s : State) : reachable s -> timersRunning s.
Proof.
  induction 1 as [raw fontLoads now store s N | e s _ IH].
  - destruct (NewsTicker_live raw fontLoads _ s N)
      as (A & _ & _ & _ & I & R & Y & _ & _ & X).
    unfold timersRunning. rewrite A, I, X. cbn in *.
    repeat split; [discriminate|].
    exists 1%nat. repeat split; trivial. discriminate.
  - now apply timersRunning_dispatch.
Qed.

(** On a live widget five advances always come back to the service they
    started from: the index stays in 0..4 and [currentService] follows it. *)
Lemma reachable_cycle_closes (s : State) :
  reachable s ->
  attached (dom s) = true ->
  let s5 := iter 5 (run cycleToNextService) s in
  currentServiceIndex (this s5) = currentServiceIndex (this s)
  /\ currentService (this s5) = currentService (this s).
Proof.
  intros R A s5. subst s5.
  destruct (reachable_wellFormed s R) as (L & C & _).
  destruct (cycleToNextService_iter 5 s A) as (I5 & _ & _ & C5).
  rewrite (next_five _ L) in I5. split; [exact I5|].
  specialize (C5 ltac:(discriminate)). rewrite I5 in C5.
  unfold selectorConsistent in C. congruence.
Qed.

(** A fallback to a non-empty snapshot writes the snapshot back with the
    current time, so the cache ages from the last render, not from the last
    successful fetch. *)
Lemma fallback_rewrites_cache (s : State) (r : FetchResult)
    (hs : list Headline) (t : Z) :
  fetchFailed r = true ->
  localStorage (env s) = Storage (Some (Snapshot hs t)) ->
  clock (env s) - t < 3600000 ->
  hs <> [] ->
  localStorage (env (run (loadHeadlines_settled r) s))
  = Storage (Some (Snapshot hs (clock (env s)))).
Proof.
  intros F E L N. unfold run.
  rewrite (loadHeadlines_settled_failure r s F),
    (usableSnapshot_fresh s hs t E L). cbn [final].
  rewrite afterRender_nonempty by exact N.
  unfold rendered, afterSave. cbn. rewrite E. reflexivity.
Qed.

(** ** Tear-down: the claim *)

Lemma destroy_detaches (s : State) : attached (dom (dispatch Destroy s)) = false.
Proof.
  unfold dispatch, run, destroy, cancelAnimationFrame, bind, get, on_env,
    on_dom.
  destruct (truthyHandle _); [destruct (animationId _)|]; reflexivity.
Qed.

(** C2 does not hold of the code. In every state of a widget, [destroy]
    cancels the requested animation frame, so that no further animation step
    runs, but it leaves the interval timer that [init] started: the timer is
    still running after [destroy], and when it fires [loadHeadlines] is
    called and issues a request. *)
Theorem destroy_leaves_refresh_timer (s : State) :
  reachable s ->
  let s' := dispatch Destroy s in
  rafPending (env s') = []
  /\ intervals (env s') = [300000]
  /\ dispatch (IntervalFired 0) s' = run loadHeadlines s'
  /\ exists request,
       inflight (env (dispatch (IntervalFired 0) s'))
       = inflight (env s') ++ [request].
Proof.
  intros R s'.
  destruct (reachable_timersRunning s' (reachable_step Destroy s R))
    as (I & _ & L).
  subst s'. rewrite destroy_detaches in L.
  assert (F : dispatch (IntervalFired 0) (dispatch Destroy s)
              = run loadHeadlines (dispatch Destroy s)).
  { unfold dispatch at 1. now rewrite I. }
  split; [exact L|]. split; [exact I|]. split; [exact F|].
  rewrite F. apply loadHeadlines_issues_request.
Qed.

(** The widget of a fresh page: the timer of [init] survives [destroy]; its
    next tick fetches, and the answer replaces [headlines] and the cache of
    the destroyed widget. *)
Lemma destroy_leaves_refresh_timer_witness :
  let s := freshWidget 0 in
  let after :=
    dispatchAll [ Destroy; Frame; Elapse 300000; IntervalFired 0;
                  FetchSettled 1 (HttpResponse 200 (Some [headlineA 0])) ] s in
  reachable s
  /\ rafPending (env (dispatch Destroy s)) = []
  /\ intervals (env (dispatch Destroy s)) = [300000]
  /\ inflight (env (dispatch (IntervalFired 0) (dispatch Destroy s)))
     = [ "/api/news?service=sports"; "/api/news?service=sports" ]%string
  /\ headlines (this after) = [headlineA 0]
  /\ localStorage (env after) = Storage (Some (Snapshot [headlineA 0] 300000)).
Proof.
  intros s after.
  assert (R : reachable s)
    by exact (reachable_new noOptions true 0 (Storage None) s
                (NewsTicker_started 0 (Storage None))).
  destruct (destroy_leaves_refresh_timer s R) as (P & I & _ & _).
  split; [exact R|]. split; [exact P|]. split; [exact I|].
  repeat split.
Defined.

(** * Further properties of the widget *)

(** ** Construction *)



(** X2. A constructor that reaches [setupTicker] leaves a live widget: the
    content is shown, the first service (sports) is selected, one request
    for [?service=sports] is on its way, one animation frame is requested
    and its handle kept, the 5-minute timer runs, and nothing is rendered
    yet. *)
Theorem constructor_starts_widget (raw : RawOptions) (fontLoads : bool)
    (b : Browser) (s : State) :
  NewsTicker raw true fontLoads b = Some s ->
  attached (dom s) = true
  /\ contentHidden (dom s) = false
  /\ currentServiceIndex (this s) = 0%nat
  /\ currentService (this s) = "sports"%string
  /\ intervals (env s) = intervals b ++ [300000]
  /\ rafPending (env s) = rafPending b ++ [rafNext b]
  /\ animationId (this s) = Some (rafNext b)
  /\ inflight (env s)
     = inflight b ++ [(endpoint (defaults raw) ++ "?service=sports")%string]
  /\ tickerList (dom s) = []
  /\ rafNext (env s) = S (rafNext b).
Proof. apply NewsTicker_live. Qed.

Lemma constructor_starts_widget_witness :
  let raw := mkRaw None (Some "/feed"%string) None None None None
                   (Some "font.css"%string) None in
  let b := idleBrowser 7 (Storage None) in
  exists s,
    NewsTicker raw true true b = Some s
    /\ currentService (this s) = "sports"%string
    /\ inflight (env s) = ["/feed?service=sports"%string]
    /\ intervals (env s) = [300000].
Proof.
  intros raw b.
  exists (run (init true true) (constructed raw b)).
  assert (N : NewsTicker raw true true b
              = Some (run (init true true) (constructed raw b)))
    by reflexivity.
  destruct (constructor_starts_widget raw true b _ N)
    as (_ & _ & _ & C & I & _ & _ & F & _).
  split; [exact N|]. split; [exact C|]. split; [exact F | exact I].
Defined.

(** X3. When the target is missing, or a configured font does not load,
    [init] returns without throwing and sets nothing up: no ticker node is
    created, and no request, no animation frame and no timer is started. *)
Theorem init_gives_up (raw : RawOptions) (targetFound fontLoads : bool)
    (b : Browser) :
  targetFound = false
  \/ (fontCss (defaults raw) <> None /\ fontLoads = false) ->
  init targetFound fontLoads (constructed raw b)
  = Normal tt (constructed raw b)
  /\ NewsTicker raw targetFound fontLoads b = None.
Proof.
  intros [-> | [F ->]].
  - split; reflexivity.
  - destruct (fontCss (defaults raw)) as [f|] eqn:E; [|congruence].
    split.
    + unfold init, try_catch. destruct targetFound; cbn [negb]; [|reflexivity].
      unfold bind at 1. unfold get at 1. cbv beta iota.
      cbn [this options constructed]. rewrite E. reflexivity.
    + unfold NewsTicker. rewrite E. destruct targetFound; reflexivity.
Qed.

Lemma init_gives_up_witness :
  let raw := mkRaw None None None None None None (Some "font.css"%string)
                   None in
  let b := idleBrowser 7 (Storage None) in
  fontCss (defaults raw) <> None
  /\ run (init true false) (constructed raw b) = constructed raw b
  /\ intervals (env (run (init true false) (constructed raw b))) = []
  /\ NewsTicker raw true false b = None.
Proof.
  intros raw b.
  assert (F : fontCss (defaults raw) <> None) by discriminate.
  destruct (init_gives_up raw true false b (or_intror (conj F eq_refl)))
    as [I N].
  split; [exact F|]. unfold run. rewrite I.
  split; [reflexivity|]. split; [reflexivity | exact N].
Defined.

(** ** Requests *)

(** One call of [cycleToNextService] on a live widget, in full. *)
Lemma cycleToNextService_spec (s : State) :
  attached (dom s) = true ->
  exists e,
    nth_error serviceCycle (next (currentServiceIndex (this s))) = Some e
    /\ cycleToNextService s
       = Normal tt
           (mkState
              (set_currentService (service e)
                 (set_currentServiceIndex (next (currentServiceIndex (this s)))
                    (this s)))
              (set_btnText (label e) (dom s))
              (set_inflight
                 (inflight (env s)
                  ++ [requestFor (endpoint (options (this s))) (service e)])
                 (env s))).
Proof.
  intros A. destruct s as [w d b]. cbn [this dom env] in *.
  destruct (entry_exists (next (currentServiceIndex w)) (next_lt _)) as [e E].
  exists e. split; [exact E|].
  assert (K : In e serviceCycle) by (eapply nth_error_In; exact E).
  unfold cycleToNextService.
  change (fun w0 : Widget =>
            set_currentServiceIndex
              ((currentServiceIndex w0 + 1) mod List.length serviceCycle)%nat w0)
    with (fun w0 : Widget =>
            set_currentServiceIndex (next (currentServiceIndex w0)) w0).
  unfold bind at 1. unfold on_this at 1. cbn [this dom env].
  unfold bind at 1. unfold get.
  cbn [this dom env set_currentServiceIndex currentServiceIndex].
  rewrite E, A.
  unfold bind, on_dom, on_this, loadHeadlines, bind, get, fetch, on_env,
    requestFor.
  cbn [this dom env].
  cbn in K. destruct K as [<-|[<-|[<-|[<-|[<-|[]]]]]]; destruct w; reflexivity.
Qed.

(** X4. On a live widget an advance of the selector always finds its entry
    and returns normally: it shows the entry's label on the button, selects
    its id, and issues exactly one request, for [endpoint?service=id], or
    for the bare endpoint when the entry is the default service news.
    Headlines, display and position are not touched until the request
    settles. *)
Theorem cycle_requests_next_service (s : State) :
  attached (dom s) = true ->
  exists e,
    nth_error serviceCycle (next (currentServiceIndex (this s))) = Some e
    /\ threw (cycleToNextService s) = false
    /\ (let s' := run cycleToNextService s in
        currentService (this s') = service e
        /\ btnText (dom s') = label e
        /\ inflight (env s')
           = inflight (env s)
             ++ [requestFor (endpoint (options (this s))) (service e)]
        /\ headlines (this s') = headlines (this s)
        /\ tickerList (dom s') = tickerList (dom s)
        /\ currentPosition (this s') = currentPosition (this s)).
Proof.
  intros A. destruct (cycleToNextService_spec s A) as (e & E & R).
  exists e. split; [exact E|]. unfold run. rewrite R. cbn [threw final].
  destruct s as [w d b]; destruct w, d. repeat split.
Qed.

Lemma cycle_requests_next_service_witness :
  let s := dispatch Click (freshWidget 0) in
  attached (dom s) = true
  /\ currentService (this s) = "local"%string
  /\ inflight (env (run cycleToNextService s))
     = [ "/api/news?service=sports"; "/api/news?service=local";
         "/api/news" ]%string
  /\ btnText (dom (run cycleToNextService s)) = "News"%string.
Proof.
  intros s.
  assert (A : attached (dom s) = true) by reflexivity.
  destruct (cycle_requests_next_service s A) as (e & E & _ & _ & B & I & _).
  split; [exact A|]. split; [reflexivity|].
  injection E as <-. rewrite I, B. split; reflexivity.
Defined.

(** X5. The work the widget does on its own never throws, whatever the
    request brings and whatever state the storage is in: the completion of
    [loadHeadlines], [renderHeadlines], [saveToCache], [loadFromCache], the
    animation step and [init] all return normally. *)
Theorem background_work_never_throws (s : State) :
  (forall r, threw (loadHeadlines_settled r s) = false)
  /\ threw (renderHeadlines s) = false
  /\ threw (saveToCache s) = false
  /\ threw (loadFromCache s) = false
  /\ threw (animate s) = false
  /\ threw (loadHeadlines s) = false
  /\ (forall targetFound fontLoads,
        threw (init targetFound fontLoads s) = false).
Proof.
  split; [|split; [|split; [|split; [|split; [|split]]]]].
  - intros r. destruct (rejected r) eqn:R.
    + now rewrite (loadHeadlines_settled_rejected r s R).
    + destruct r as [|status [fetched|]]; cbn in R; try discriminate.
      * apply orb_false_elim in R. destruct R as [R _].
        apply negb_false_iff in R.
        now rewrite (loadHeadlines_settled_success status fetched s R).
      * rewrite orb_true_r in R. discriminate.
  - now rewrite renderHeadlines_spec.
  - now rewrite saveToCache_spec.
  - now rewrite loadFromCache_spec.
  - now rewrite animate_total.
  - reflexivity.
  - intros targetFound fontLoads. unfold init, try_catch.
    destruct (_ s); reflexivity.
Qed.

(** ** Fetch completion and the cache *)

(** X6. A successful fetch leaves the widget online: [headlines] is the
    fetched list cut to [maxHeadlines], [offlineMode] is cleared, the badge
    is hidden and [lastUpdate] is the current time. When the kept list is
    not empty the display is rebuilt, the position is reset to 0 and the
    list is written to the cache with the current time; a storage that
    refuses to work is left alone and does not stop the render. *)
Theorem successful_fetch_refreshes (s : State) (status : Z)
    (fetched : list Headline) :
  ok status = true ->
  let kept := firstn (maxHeadlines (options (this s))) fetched in
  let now := clock (env s) in
  let s' :=
    run (loadHeadlines_settled (HttpResponse status (Some fetched))) s in
  headlines (this s') = kept
  /\ offlineMode (this s') = false
  /\ offlineDisplay (dom s') = "none"%string
  /\ lastUpdate (this s') = now
  /\ (kept <> [] ->
      currentPosition (this s') = 0%float
      /\ tickerList (dom s') = itemsAt now kept ++ itemsAt now kept
      /\ (forall item,
            localStorage (env s) = Storage item ->
            localStorage (env s') = Storage (Some (Snapshot kept now)))
      /\ (localStorage (env s) = StorageUnavailable ->
          localStorage (env s') = StorageUnavailable)).
Proof.
  intros K. cbv zeta. unfold run.
  rewrite (loadHeadlines_settled_success status fetched s K). cbn [final].
  cbv zeta. unfold Js.slice0.
  generalize (firstn (maxHeadlines (options (this s))) fetched).
  intros kept. unfold afterRender, rendered, afterSave.
  destruct s as [w d b]; destruct w, d, kept as [|h hs]; cbn.
  - do 4 (split; [reflexivity|]). intros N. now elim N.
  - do 3 (split; [reflexivity|]).
    split; [destruct (localStorage b); reflexivity|].
    intros _. do 2 (split; [reflexivity|]). split.
    + intros item E. rewrite E. reflexivity.
    + intros E. rewrite E. exact E.
Qed.

Lemma successful_fetch_refreshes_witness :
  let s := run (loadHeadlines_settled NetworkError) (freshWidget 5) in
  let s' := run (loadHeadlines_settled
                   (HttpResponse 200 (Some [headlineA 0; headlineB 0]))) s in
  ok 200 = true
  /\ offlineMode (this s) = true
  /\ offlineMode (this s') = false
  /\ offlineDisplay (dom s') = "none"%string
  /\ localStorage (env s')
     = Storage (Some (Snapshot [headlineA 0; headlineB 0] 5)).
Proof.
  intros s s'.
  destruct (successful_fetch_refreshes s 200 [headlineA 0; headlineB 0]
              eq_refl) as (_ & O & D & _ & R).
  destruct (R ltac:(discriminate)) as (_ & _ & C & _).
  split; [reflexivity|]. split; [reflexivity|]. split; [exact O|].
  split; [exact D|]. exact (C None eq_refl).
Defined.

(** X7. What a render writes to the cache comes back on a failed fetch as
    long as less than an hour has passed: [loadFromCache] then restores the
    very list that was rendered and rebuilds the display from it. From one
    hour on the same cache entry is ignored and the state is left as it is. *)
Theorem cache_round_trip (s s2 : State) (item : option CacheItem) (dt : Z) :
  headlines (this s) <> [] ->
  localStorage (env s) = Storage item ->
  localStorage (env s2) = localStorage (env (run renderHeadlines s)) ->
  clock (env s2) = clock (env s) + dt ->
  (dt < 3600000 ->
   headlines (this (run loadFromCache s2)) = headlines (this s)
   /\ tickerList (dom (run loadFromCache s2))
      = itemsAt (clock (env s2)) (headlines (this s))
        ++ itemsAt (clock (env s2)) (headlines (this s)))
  /\ (3600000 <= dt -> run loadFromCache s2 = s2).
Proof.
  intros N E L C.
  assert (S2 : localStorage (env s2)
               = Storage (Some (Snapshot (headlines (this s))
                                         (clock (env s))))).
  { rewrite L. unfold run. rewrite renderHeadlines_spec. cbn [final].
    rewrite afterRender_nonempty by exact N.
    unfold rendered, afterSave. cbn. now rewrite E. }
  unfold run. rewrite loadFromCache_spec. cbn [final]. split.
  - intros D.
    rewrite (usableSnapshot_fresh s2 _ _ S2) by lia.
    rewrite afterRender_nonempty by exact N. split; reflexivity.
  - intros D. rewrite usableSnapshot_none; [reflexivity|].
    right. eexists _, _. split; [exact S2 | lia].
Qed.

Lemma cache_round_trip_witness :
  let s := withHeadlines [headlineA 0] (freshWidget 1000) in
  let s2 := later 3599999 (withHeadlines [] (run renderHeadlines s)) in
  headlines (this s) <> []
  /\ headlines (this s2) = []
  /\ headlines (this (run loadFromCache s2)) = [headlineA 0]
  /\ run loadFromCache (later 1 s2) = later 1 s2.
Proof.
  intros s s2.
  assert (N : headlines (this s) <> []) by discriminate.
  destruct (cache_round_trip s s2 None 3599999 N eq_refl eq_refl eq_refl)
    as [F _].
  destruct (cache_round_trip s (later 1 s2) None 3600000 N eq_refl eq_refl
              eq_refl) as [_ G].
  split; [exact N|]. split; [reflexivity|].
  split; [exact (proj1 (F eq_refl)) | apply G; discriminate].
Defined.

(** X8. A cache that cannot be used is treated as absent and harms nothing.
    With the storage out of order, or with an entry that does not parse,
    [loadFromCache] changes nothing and a failed fetch only marks the
    widget offline. With the storage out of order a render still rebuilds
    the display and leaves the storage alone. *)
Theorem unusable_cache_is_ignored (s : State) :
  localStorage (env s) = StorageUnavailable
  \/ localStorage (env s) = Storage (Some Unparsable) ->
  loadFromCache s = Normal tt s
  /\ (forall r, fetchFailed r = true ->
                loadHeadlines_settled r s = Normal tt (markedOffline s))
  /\ (localStorage (env s) = StorageUnavailable ->
      headlines (this s) <> [] ->
      let s' := run renderHeadlines s in
      tickerList (dom s')
      = itemsAt (clock (env s)) (headlines (this s))
        ++ itemsAt (clock (env s)) (headlines (this s))
      /\ env s' = env s).
Proof.
  intros U.
  assert (N : usableSnapshot s = None)
    by (unfold usableSnapshot; destruct U as [-> | ->]; reflexivity).
  split; [|split].
  - rewrite loadFromCache_spec. now rewrite N.
  - intros r F. rewrite (loadHeadlines_settled_failure r s F). now rewrite N.
  - intros V H s'. subst s'. unfold run. rewrite renderHeadlines_spec.
    cbn [final]. rewrite afterRender_nonempty by exact H.
    unfold rendered, afterSave. cbn. rewrite V. split; reflexivity.
Qed.

Lemma unusable_cache_is_ignored_witness :
  let s := withHeadlines [headlineA 0]
             (startedWidget 10 (Storage (Some Unparsable))) in
  localStorage (env s) = Storage (Some Unparsable)
  /\ run (loadHeadlines_settled NetworkError) s = markedOffline s
  /\ headlines (this (run (loadHeadlines_settled NetworkError) s))
     = [headlineA 0].
Proof.
  intros s.
  destruct (unusable_cache_is_ignored s (or_intror eq_refl)) as (_ & F & _).
  split; [reflexivity|]. unfold run. rewrite (F NetworkError eq_refl).
  split; reflexivity.
Defined.

(** ** What an event can change *)

(** The completion of [loadHeadlines] writes [headlines], [currentPosition],
    [lastUpdate] and [offlineMode] of the object, the list and the badge of
    the display, and nothing else of the two; the list is kept or is a fresh
    render. *)
Lemma settled_frame (r : FetchResult) (s : State) :
  exists hs pos lu off l disp b',
    run (loadHeadlines_settled r) s
    = mkState
        (mkWidget (options (this s)) hs (isPaused (this s))
                  (animationId (this s)) pos lu off (currentService (this s))
                  (currentServiceIndex (this s)))
        (set_offlineDisplay disp (set_tickerList l (dom s))) b'
    /\ (l = tickerList (dom s)
        \/ exists now kept, l = itemsAt now kept ++ itemsAt now kept).
Proof.
  unfold run. destruct (rejected r) eqn:R.
  - rewrite (loadHeadlines_settled_rejected r s R). cbn [final].
    destruct s as [w d b]; destruct w, d.
    destruct (usableSnapshot _) as [[|h hs]|]; unfold afterRender; cbn.
    + repeat eexists. now left.
    + do 7 eexists. split; [reflexivity|].
      right. exists (clock b), (h :: hs). reflexivity.
    + repeat eexists. now left.
  - destruct r as [|status [fetched|]]; cbn in R; try discriminate.
    + apply orb_false_elim in R. destruct R as [R _].
      apply negb_false_iff in R.
      rewrite (loadHeadlines_settled_success status fetched s R).
      cbn [final]. cbv zeta. unfold Js.slice0.
      generalize (firstn (maxHeadlines (options (this s))) fetched).
      intros kept. destruct s as [w d b]; destruct w, d.
      unfold afterRender. destruct kept as [|h hs]; cbn.
      * repeat eexists. now left.
      * do 7 eexists. split; [reflexivity|].
        right. exists (clock b), (h :: hs). reflexivity.
    + rewrite orb_true_r in R. discriminate.
Qed.

(** An animation step writes [currentPosition] and [animationId] of the
    object and the transform of the track, and nothing else of the two. *)
Lemma animate_frame (s : State) :
  exists pos aid tr b',
    run animate s
    = mkState
        (mkWidget (options (this s)) (headlines (this s)) (isPaused (this s))
                  aid pos (lastUpdate (this s)) (offlineMode (this s))
                  (currentService (this s)) (currentServiceIndex (this s)))
        (set_trackTransform tr (dom s)) b'.
Proof.
  destruct s as [w d b]. destruct w as [o hs paused aid pos lu off cs idx], d.
  unfold run, animate, requestAnimationFrame, bind, get, ret, on_this,
    on_dom, on_env.
  cbn -[Js.ofZ].
  destruct paused; [repeat eexists|].
  destruct (PrimFloat.leb _ _); repeat eexists.
Qed.

Lemma frames_frame (ids : list nat) (s : State) :
  exists pos aid tr b',
    fold_left (fun st _ => run animate st) ids s
    = mkState
        (mkWidget (options (this s)) (headlines (this s)) (isPaused (this s))
                  aid pos (lastUpdate (this s)) (offlineMode (this s))
                  (currentService (this s)) (currentServiceIndex (this s)))
        (set_trackTransform tr (dom s)) b'.
Proof.
  revert s. induction ids as [|id ids IH]; intros s.
  - destruct s as [w d b]; destruct w, d. repeat eexists.
  - cbn [fold_left]. destruct (animate_frame s) as (p & a & t & b1 & E).
    rewrite E. destruct (IH (mkState
        (mkWidget (options (this s)) (headlines (this s)) (isPaused (this s))
                  a p (lastUpdate (this s)) (offlineMode (this s))
                  (currentService (this s)) (currentServiceIndex (this s)))
        (set_trackTransform t (dom s)) b1)) as (p' & a' & t' & b2 & E').
    rewrite E'. destruct s as [w d b]; destruct w, d. repeat eexists.
Qed.

(** The toggle, called on a live widget whose index is in range, returns
    normally and only restyles the display. *)
Lemma toggle_frame (s : State) (lbl : string) :
  attached (dom s) = true ->
  labelAt (currentServiceIndex (this s)) = Some lbl ->
  toggleTickerVisibility s
  = Normal tt
      (mkState (this s)
         (if contentHidden (dom s)
          then set_btnBorder ""
                 (set_btnText lbl
                    (set_containerBorder ""
                       (set_containerBackground ""
                          (set_contentHidden false (dom s)))))
          else set_btnBorder "2px solid #8FE04A"
                 (set_btnText hiddenGlyph
                    (set_containerBorder "none"
                       (set_containerBackground "transparent"
                          (set_contentHidden true (dom s))))))
         (env s)).
Proof.
  intros A L. unfold labelAt in L.
  destruct (nth_error serviceCycle (currentServiceIndex (this s)))
    as [e|] eqn:E; [|discriminate].
  injection L as <-.
  unfold toggleTickerVisibility, bind, get. rewrite A. cbn [negb].
  destruct (contentHidden (dom s)).
  - unfold on_dom. cbn [this dom env]. rewrite E. reflexivity.
  - reflexivity.
Qed.

(** A click or a double click on the selector writes the selection of the
    object and the styling of the display, and nothing else of the two. *)
Lemma selector_frame (s : State) (m : M unit) :
  m = onClick \/ m = onDblClick ->
  exists idx cs hid bg cb btn brd b',
    run m s
    = mkState
        (mkWidget (options (this s)) (headlines (this s)) (isPaused (this s))
                  (animationId (this s)) (currentPosition (this s))
                  (lastUpdate (this s)) (offlineMode (this s)) cs idx)
        (mkDom (attached (dom s)) hid bg cb btn brd (tickerList (dom s))
               (scrollWidth (dom s)) (offlineDisplay (dom s))
               (trackTransform (dom s)) (trackDirection (dom s))
               (pausedClass (dom s)) (hoverListeners (dom s)))
        b'.
Proof.
  intros [-> | ->]; destruct s as [w d b];
    destruct w, d as [att hid bg cb bt bb tl sw od tt td pc hl];
    unfold run, onDblClick, onClick, toggleTickerVisibility,
      cycleToNextService, loadHeadlines, fetch, bind, get, on_dom, on_this,
      on_env, throw;
    cbn -[Nat.modulo nth_error];
    destruct att, hid; cbn -[Nat.modulo nth_error];
    try (repeat eexists; fail);
    destruct (nth_error _ _); repeat eexists.
Qed.

(** ** The texts of the display are escaped *)

Lemma list_ascii_of_string_app (a b : string) :
  list_ascii_of_string (a ++ b)
  = list_ascii_of_string a ++ list_ascii_of_string b.
Proof. induction a as [|c a IH]; cbn; [reflexivity | now rewrite IH]. Qed.

Lemma escapeHtml_plain (t : string) : plainText (Js.escapeHtml t).
Proof.
  unfold plainText. induction t as [|c t IH]; intros x H; [destruct H|].
  cbn [Js.escapeHtml] in H. rewrite list_ascii_of_string_app in H.
  apply in_app_or in H. destruct H as [H|H]; [|now apply IH].
  destruct (Ascii.eqb c "&") eqn:A.
  { cbn in H. repeat (destruct H as [<-|H]; [split; discriminate|]).
    destruct H. }
  destruct (Ascii.eqb c "<") eqn:L.
  { cbn in H. repeat (destruct H as [<-|H]; [split; discriminate|]).
    destruct H. }
  destruct (Ascii.eqb c ">") eqn:G.
  { cbn in H. repeat (destruct H as [<-|H]; [split; discriminate|]).
    destruct H. }
  cbn in H. destruct H as [<-|[]].
  apply Ascii.eqb_neq in L, G. split; assumption.
Qed.

Lemma itemsAt_safe (now : Z) (hs : list Headline) :
  Forall safeItem (itemsAt now hs).
Proof.
  unfold itemsAt. apply Forall_map. apply Forall_forall. intros h _.
  split; apply escapeHtml_plain.
Qed.

Lemma dispatch_display (e : Event) (s : State) :
  tickerList (dom (dispatch e s)) = tickerList (dom s)
  \/ exists now kept,
       tickerList (dom (dispatch e s)) = itemsAt now kept ++ itemsAt now kept.
Proof.
  destruct e; unfold dispatch.
  - left. destruct (frames_frame (rafPending (env s))
                      (run (on_env (set_rafPending [])) s))
      as (p & a & t & b' & E).
    rewrite E. destruct s as [x y z]; destruct y; reflexivity.
  - left. destruct (nth_error _ _); reflexivity.
  - destruct (nth_error _ _); [|now left].
    set (st := mkState (this s) (dom s)
                 (set_inflight (removeNth k (inflight (env s))) (env s))).
    change (run (on_env (fun b => set_inflight (removeNth k (inflight b)) b) ;;
                 loadHeadlines_settled r) s)
      with (run (loadHeadlines_settled r) st).
    destruct (settled_frame r st)
      as (hs & p & lu & off & l & disp & b' & E & D).
    rewrite E. subst st. cbn in D |- *.
    destruct D as [D | (now & kept & D)].
    + left. exact D.
    + right. exists now, kept. exact D.
  - left. destruct (attached (dom s)); [|reflexivity].
    destruct (selector_frame s onClick (or_introl eq_refl))
      as (i & c & h & bg & cb & bt & br & b' & E).
    now rewrite E.
  - left. destruct (attached (dom s)); [|reflexivity].
    destruct (selector_frame s onDblClick (or_intror eq_refl))
      as (i & c & h & bg & cb & bt & br & b' & E).
    now rewrite E.
  - left. destruct (hoverListeners (dom s)); [|reflexivity].
    destruct s as [x y z]; destruct y; reflexivity.
  - left. destruct (hoverListeners (dom s)); [|reflexivity].
    destruct s as [x y z]; destruct y; reflexivity.
  - left. destruct s as [x y z]; destruct y; reflexivity.
  - left. reflexivity.
  - left. unfold run, destroy, cancelAnimationFrame, bind, get, on_env, on_dom.
    destruct (truthyHandle _); [destruct (animationId _)|];
      destruct s as [x y z]; destruct y; reflexivity.
  - left. reflexivity.
  - left. reflexivity.
Qed.

(** X9. Whatever the endpoint or the cache delivers, the source and the
    title of every item in the display of a widget are free of raw [<] and
    [>]: both texts go through [sanitizeText] before they are put in the
    list. (The link target is written as it comes.) *)
Theorem display_text_is_escaped (s : State) :
  reachable s -> Forall safeItem (tickerList (dom s)).
Proof.
  induction 1 as [raw fontLoads now store s N | e s _ IH].
  - destruct (NewsTicker_live raw fontLoads _ s N)
      as (_ & _ & _ & _ & _ & _ & _ & _ & L & _).
    rewrite L. constructor.
  - destruct (dispatch_display e s) as [-> | (now & kept & ->)];
      [exact IH|].
    apply Forall_app. split; apply itemsAt_safe.
Qed.

Lemma display_text_is_escaped_witness :
  let evil := mkHeadline "<b>S</b>" "<script>alert(1)</script> & co" "u" 0 in
  let s := dispatch (FetchSettled 0 (HttpResponse 200 (Some [evil])))
                    (freshWidget 0) in
  reachable s
  /\ Forall safeItem (tickerList (dom s))
  /\ map newsTitle (tickerList (dom s))
     = [ "&lt;script&gt;alert(1)&lt;/script&gt; &amp; co";
         "&lt;script&gt;alert(1)&lt;/script&gt; &amp; co" ]%string.
Proof.
  intros evil s.
  assert (R : reachable s).
  { apply reachable_step.
    exact (reachable_new noOptions true 0 (Storage None) _
             (NewsTicker_started 0 (Storage None))). }
  split; [exact R|]. split; [exact (display_text_is_escaped s R)|].
  reflexivity.
Defined.

Lemma fetchSettled_run (k : nat) (r : FetchResult) (s : State) :
  dispatch (FetchSettled k r) s = s
  \/ exists b, dispatch (FetchSettled k r) s
               = run (loadHeadlines_settled r) (mkState (this s) (dom s) b).
Proof.
  unfold dispatch. destruct (nth_error _ _); [|now left].
  right. eexists. reflexivity.
Qed.

(** ** The selector button follows the selection *)

Lemma presentable_same (s s' : State) :
  currentServiceIndex (this s') = currentServiceIndex (this s) ->
  contentHidden (dom s') = contentHidden (dom s) ->
  btnText (dom s') = btnText (dom s) ->
  btnBorder (dom s') = btnBorder (dom s) ->
  containerBackground (dom s') = containerBackground (dom s) ->
  containerBorder (dom s') = containerBorder (dom s) ->
  presentable s -> presentable s'.
Proof. unfold presentable. intros -> -> -> -> -> ->. trivial. Qed.

Lemma labelAt_in_range (i : nat) :
  (i < 5)%nat -> exists lbl, labelAt i = Some lbl.
Proof.
  intros L. destruct (entry_exists i L) as [e E].
  exists (label e). unfold labelAt. now rewrite E.
Qed.

Lemma presentable_toggle (s : State) :
  attached (dom s) = true ->
  (currentServiceIndex (this s) < 5)%nat ->
  presentable s -> presentable (run toggleTickerVisibility s).
Proof.
  intros A L P. destruct (labelAt_in_range _ L) as [lbl E].
  unfold run. rewrite (toggle_frame s lbl A E). cbn [final].
  unfold presentable in *. destruct (contentHidden (dom s));
    destruct s as [w d b]; destruct w, d; cbn in *; repeat split; trivial.
Qed.

Lemma presentable_cycle (s : State) :
  attached (dom s) = true ->
  contentHidden (dom s) = false ->
  presentable s -> presentable (run cycleToNextService s).
Proof.
  intros A H P. destruct s as [w d b]. cbn [this dom env] in *.
  destruct (entry_exists (next (currentServiceIndex w)) (next_lt _)) as [e E].
  destruct (cycleToNextService_live w d b e A E) as [b' R].
  unfold run. rewrite R. cbn [final].
  unfold presentable, labelAt in *. destruct w, d; cbn in *. subst.
  rewrite E. destruct P as (_ & P). repeat split; apply P.
Qed.

Lemma presentable_dispatch (e : Event) (s : State) :
  (currentServiceIndex (this s) < 5)%nat ->
  presentable s -> presentable (dispatch e s).
Proof.
  intros L P. destruct e.
  - unfold dispatch.
    destruct (frames_frame (rafPending (env s))
                (run (on_env (set_rafPending [])) s))
      as (p & a & t & b' & E).
    rewrite E. revert P.
    apply presentable_same; destruct s as [x y z]; destruct y; reflexivity.
  - unfold dispatch. destruct (nth_error _ _); [|exact P]. revert P.
    apply presentable_same; reflexivity.
  - destruct (fetchSettled_run k r s) as [-> | [b ->]]; [exact P|].
    destruct (settled_frame r (mkState (this s) (dom s) b))
      as (hs & p & lu & off & l & disp & b' & E & _).
    rewrite E. revert P.
    apply presentable_same; destruct s as [x y z]; destruct y; reflexivity.
  - unfold dispatch. destruct (attached (dom s)) eqn:A; [|exact P].
    unfold run, onClick, bind, get. rewrite A. cbn [negb].
    destruct (contentHidden (dom s)) eqn:H.
    + now apply presentable_toggle.
    + now apply presentable_cycle.
  - unfold dispatch. destruct (attached (dom s)) eqn:A; [|exact P].
    now apply presentable_toggle.
  - unfold dispatch. destruct (hoverListeners (dom s)); [|exact P]. revert P.
    apply presentable_same; destruct s as [x y z]; destruct y; reflexivity.
  - unfold dispatch. destruct (hoverListeners (dom s)); [|exact P]. revert P.
    apply presentable_same; destruct s as [x y z]; destruct y; reflexivity.
  - revert P.
    apply presentable_same; destruct s as [x y z]; destruct y; reflexivity.
  - revert P. apply presentable_same; reflexivity.
  - revert P. apply presentable_same;
      unfold dispatch, run, destroy, cancelAnimationFrame, bind, get, on_env,
        on_dom;
      (destruct (truthyHandle _); [destruct (animationId _)|]);
      destruct s as [x y z]; destruct y; reflexivity.
  - revert P. apply presentable_same; reflexivity.
  - revert P. apply presentable_same; reflexivity.
Qed.

(** The display and the pause flag as [init] leaves them. *)
Lemma init_sets_up_display (raw : RawOptions) (b : Browser) :
  exists s,
    (setupTicker ;; loadHeadlines ;; startAnimation ;; setInterval 300000)
      (constructed raw b) = Normal tt s
    /\ btnText (dom s) = "Sports"%string
    /\ btnBorder (dom s) = ""%string
    /\ containerBackground (dom s) = ""%string
    /\ containerBorder (dom s) = ""%string
    /\ isPaused (this s) = false
    /\ pausedClass (dom s) = false
    /\ hoverListeners (dom s) = pauseOnHover (defaults raw)
    /\ offlineMode (this s) = false
    /\ offlineDisplay (dom s) = "none"%string
    /\ options (this s) = defaults raw.
Proof.
  unfold bind at 1.
  unfold setupTicker, setupServiceSelector, bind, get, on_dom, on_this.
  cbn [constructed this dom env].
  unfold loadHeadlines, fetch, bind, get, on_env.
  unfold startAnimation, bind, get.
  cbn [this animationId truthyHandle set_currentService
       set_currentServiceIndex].
  rewrite animate_total.
  match goal with
  | |- context [run animate ?st] =>
      destruct (animate_frame st) as (p & a & t & b' & E)
  end.
  rewrite E. eexists. split; [reflexivity|]. repeat split.
Qed.

Lemma NewsTicker_display (raw : RawOptions) (fontLoads : bool) (b : Browser)
    (s : State) :
  NewsTicker raw true fontLoads b = Some s ->
  btnText (dom s) = "Sports"%string
  /\ btnBorder (dom s) = ""%string
  /\ containerBackground (dom s) = ""%string
  /\ containerBorder (dom s) = ""%string
  /\ isPaused (this s) = false
  /\ pausedClass (dom s) = false
  /\ hoverListeners (dom s) = pauseOnHover (defaults raw)
  /\ offlineMode (this s) = false
  /\ offlineDisplay (dom s) = "none"%string
  /\ options (this s) = defaults raw.
Proof.
  destruct (init_sets_up_display raw b) as (s1 & E1 & P).
  unfold NewsTicker, run, init, try_catch. cbn [andb negb].
  unfold bind at 1. unfold get at 1. cbn [this options constructed].
  destruct (fontCss (defaults raw)) as [f|].
  - destruct fontLoads; [|discriminate]. intros E. injection E as E.
    assert (Q : s = s1).
    { rewrite <- E. unfold bind at 1. unfold ret at 1. cbv beta iota.
      now rewrite E1. }
    now rewrite Q.
  - intros E. injection E as E.
    assert (Q : s = s1).
    { rewrite <- E. unfold bind at 1. unfold ret at 1. cbv beta iota.
      now rewrite E1. }
    now rewrite Q.
Qed.

Lemma reachable_presentable (s : State) : reachable s -> presentable s.
Proof.
  intros R. induction R as [raw fontLoads now store s N | e s R IH].
  - destruct (NewsTicker_live raw fontLoads _ s N) as (_ & H & I & _).
    destruct (NewsTicker_display raw fontLoads _ s N)
      as (T & B & G & C & _).
    unfold presentable, labelAt. rewrite H, I, T, B, G, C. repeat split.
  - apply presentable_dispatch; [|exact IH].
    apply (reachable_wellFormed s R).
Qed.

(** X10. In every state of a widget the selector button tells the truth:
    while the content is shown it carries the label of the selected service
    and no inline style, and while the content is hidden it carries the
    glyph and the green border, with the container made transparent. *)
Theorem button_follows_selection (s : State) : reachable s -> presentable s.
Proof. apply reachable_presentable. Qed.

Lemma button_follows_selection_witness :
  let s := dispatchAll [Click; DblClick; Click; Click] (freshWidget 0) in
  reachable s
  /\ contentHidden (dom s) = false
  /\ currentServiceIndex (this s) = 2%nat
  /\ btnText (dom s) = "News"%string.
Proof.
  intros s.
  assert (R : reachable s).
  { do 4 apply reachable_step.
    exact (reachable_new noOptions true 0 (Storage None) _
             (NewsTicker_started 0 (Storage None))). }
  pose proof (button_follows_selection s R) as P.
  split; [exact R|]. split; [reflexivity|]. split; [reflexivity|].
  unfold presentable in P.
  change (contentHidden (dom s)) with false in P.
  destruct P as (P & _).
  apply (f_equal (fun o => match o with
                           | Some x => x
                           | None => ""%string
                           end)) in P.
  rewrite <- P. reflexivity.
Defined.

(** X11. On a live widget hiding and showing again is an exact undo: two
    calls of [toggleTickerVisibility], and likewise two double clicks, give
    back the state they started from, label and styles included. *)
Theorem toggle_twice_is_identity (s : State) :
  reachable s ->
  attached (dom s) = true ->
  run toggleTickerVisibility (run toggleTickerVisibility s) = s
  /\ dispatch DblClick (dispatch DblClick s) = s.
Proof.
  intros R A.
  destruct (reachable_wellFormed s R) as (L & _ & _).
  pose proof (reachable_presentable s R) as P.
  destruct (labelAt_in_range _ L) as [lbl E].
  assert (T : run toggleTickerVisibility (run toggleTickerVisibility s) = s).
  { unfold run at 2. rewrite (toggle_frame s lbl A E). cbn [final].
    unfold run. rewrite (toggle_frame _ lbl).
    - cbn [final this dom env]. unfold presentable in P.
      destruct s as [w d b];
        destruct w, d as [att hid bg cb bt bb tl sw od tt td pc hl];
        cbn in *.
      destruct hid; cbn;
        destruct P as (P1 & P2 & P3 & P4); subst; try reflexivity.
      rewrite E in P1. injection P1 as <-. reflexivity.
    - destruct (contentHidden (dom s)); destruct (dom s); exact A.
    - destruct (contentHidden (dom s)); exact E. }
  split; [exact T|].
  unfold dispatch. rewrite A.
  assert (A' : attached (dom (run onDblClick s)) = true).
  { unfold onDblClick, run. rewrite (toggle_frame s lbl A E). cbn [final dom].
    destruct (contentHidden (dom s)); destruct (dom s); exact A. }
  rewrite A'. exact T.
Qed.

Lemma toggle_twice_is_identity_witness :
  let s := dispatch (FetchSettled 0 (HttpResponse 200 (Some [headlineA 0])))
             (dispatch Click (freshWidget 0)) in
  reachable s
  /\ attached (dom s) = true
  /\ btnText (dom (dispatch DblClick s)) = hiddenGlyph
  /\ dispatch DblClick (dispatch DblClick s) = s.
Proof.
  intros s.
  assert (R : reachable s).
  { do 2 apply reachable_step.
    exact (reachable_new noOptions true 0 (Storage None) _
             (NewsTicker_started 0 (Storage None))). }
  split; [exact R|]. split; [reflexivity|]. split; [reflexivity|].
  exact (proj2 (toggle_twice_is_identity s R eq_refl)).
Defined.

(** ** Pausing *)

Lemma paused_frame_step (s : State) :
  isPaused (this s) = true ->
  loopRunning s ->
  rafNext (env s) <> 0%nat ->
  let s' := dispatch Frame s in
  currentPosition (this s') = currentPosition (this s)
  /\ trackTransform (dom s') = trackTransform (dom s)
  /\ isPaused (this s') = true
  /\ loopRunning s'
  /\ rafNext (env s') = S (rafNext (env s)).
Proof.
  intros P (id & _ & _ & R) N s'. subst s'.
  rewrite (frame_runs_animate s id R).
  rewrite animate_paused by (destruct s as [w d b]; exact P).
  destruct s as [w d b]; destruct w, b as [clk ls rp rn iv inf]; cbn in *.
  repeat split; trivial.
  exists rn. repeat split; trivial.
Qed.

(** X12. While the widget is paused the loop keeps running but the ticker
    stands still: after any number of display refreshes the position and the
    transform of the track are what they were, the widget is still paused
    and the next frame is requested. *)
Theorem paused_frames_freeze (n : nat) (s : State) :
  isPaused (this s) = true ->
  loopRunning s ->
  rafNext (env s) <> 0%nat ->
  let s' := iter n (dispatch Frame) s in
  currentPosition (this s') = currentPosition (this s)
  /\ trackTransform (dom s') = trackTransform (dom s)
  /\ isPaused (this s') = true
  /\ loopRunning s'
  /\ rafNext (env s') = (n + rafNext (env s))%nat.
Proof.
  revert s. induction n as [|n IH]; intros s P L N.
  - cbn. repeat split; trivial.
  - cbn [iter]. destruct (paused_frame_step s P L N) as (C & T & P' & L' & X).
    assert (N' : rafNext (env (dispatch Frame s)) <> 0%nat)
      by (rewrite X; discriminate).
    destruct (IH _ P' L' N') as (C2 & T2 & P2 & L2 & X2).
    repeat split; try congruence. rewrite X2, X. lia.
Qed.

Lemma paused_frames_freeze_witness :
  let s := dispatchAll [Layout 1000; Frame; Frame; MouseEnter]
                       (freshWidget 0) in
  isPaused (this s) = true
  /\ loopRunning s
  /\ rafNext (env s) <> 0%nat
  /\ Js.exactly (currentPosition (this s)) (-2) = true
  /\ currentPosition (this (iter 50 (dispatch Frame) s))
     = currentPosition (this s)
  /\ Js.exactly
       (currentPosition (this (dispatch Frame
                                 (dispatch MouseLeave
                                    (iter 50 (dispatch Frame) s))))) (-3)
     = true.
Proof.
  intros s.
  assert (P : isPaused (this s) = true) by (vm_compute; reflexivity).
  assert (L : loopRunning s)
    by (exists 3%nat; repeat split; vm_compute; (discriminate || reflexivity)).
  assert (N : rafNext (env s) <> 0%nat) by discriminate.
  destruct (paused_frames_freeze 50 s P L N) as (C & _).
  split; [exact P|]. split; [exact L|]. split; [exact N|].
  split; [vm_compute; reflexivity|]. split; [exact C|].
  vm_compute. reflexivity.
Defined.

(** ** The loop is started once *)







(** ** After destroy *)

Lemma filter_twice {A} (f : A -> bool) (l : list A) :
  filter f (filter f l) = filter f l.
Proof.
  induction l as [|x l IH]; [reflexivity|]. cbn.
  destruct (f x) eqn:E; cbn; rewrite ?E, IH; reflexivity.
Qed.

(** X14. A destroyed widget no longer reacts to its selector: clicks and
    double clicks find no button and change nothing, a direct call of
    [toggleTickerVisibility] throws without changing anything, and a
    second [destroy] changes nothing either. *)
Theorem destroyed_widget_ignores_selector (s : State) :
  let d := dispatch Destroy s in
  dispatch Click d = d
  /\ dispatch DblClick d = d
  /\ dispatch Destroy d = d
  /\ toggleTickerVisibility d = Thrown TypeError d.
Proof.
  intros d. pose proof (destroy_detaches s) as A. fold d in A.
  split; [|split; [|split]].
  - unfold dispatch at 1. now rewrite A.
  - unfold dispatch at 1. now rewrite A.
  - clear A. subst d.
    unfold dispatch, run, destroy, cancelAnimationFrame, bind, get,
      on_env, on_dom.
    destruct s as [w dm b];
      destruct w as [o hs paused aid pos lu off cs idx], dm, b.
    destruct aid as [id|]; [|reflexivity].
    cbn [this animationId truthyHandle].
    destruct (negb (id =? 0)%nat) eqn:E; cbn; rewrite ?E; cbn;
      rewrite ?filter_twice; reflexivity.
  - unfold toggleTickerVisibility, bind, get. now rewrite A.
Qed.

(** ** Hover pausing can be switched off *)

Lemma never_paused_dispatch (e : Event) (s : State) :
  hoverListeners (dom s) = false /\ isPaused (this s) = false
  /\ pausedClass (dom s) = false ->
  hoverListeners (dom (dispatch e s)) = false
  /\ isPaused (this (dispatch e s)) = false
  /\ pausedClass (dom (dispatch e s)) = false.
Proof.
  intros (H & P & C). destruct e.
  - unfold dispatch.
    destruct (frames_frame (rafPending (env s))
                (run (on_env (set_rafPending [])) s))
      as (p & a & t & b' & E).
    rewrite E. destruct s as [x y z]; destruct y; cbn in *. now repeat split.
  - unfold dispatch. destruct (nth_error _ _); now repeat split.
  - destruct (fetchSettled_run k r s) as [-> | [b ->]]; [now repeat split|].
    destruct (settled_frame r (mkState (this s) (dom s) b))
      as (hs & p & lu & off & l & disp & b' & E & _).
    rewrite E. destruct s as [x y z]; destruct y; cbn in *. now repeat split.
  - unfold dispatch. destruct (attached (dom s)); [|now repeat split].
    destruct (selector_frame s onClick (or_introl eq_refl))
      as (i & c & h & bg & cb & bt & br & b' & E).
    rewrite E. now repeat split.
  - unfold dispatch. destruct (attached (dom s)); [|now repeat split].
    destruct (selector_frame s onDblClick (or_intror eq_refl))
      as (i & c & h & bg & cb & bt & br & b' & E).
    rewrite E. now repeat split.
  - unfold dispatch. rewrite H. now repeat split.
  - unfold dispatch. rewrite H. now repeat split.
  - destruct s as [x y z]; destruct y; cbn in *. now repeat split.
  - now repeat split.
  - unfold dispatch, run, destroy, cancelAnimationFrame, bind, get, on_env,
      on_dom.
    destruct (truthyHandle _); [destruct (animationId _)|];
      destruct s as [x y z]; destruct y; cbn in *; now repeat split.
  - destruct s as [x y z]; destruct x; cbn in *. now repeat split.
  - now repeat split.
Qed.

(** X15. A widget built with [pauseOnHover: false] is never paused: no
    listener is put on the container, so no sequence of events, hovering
    included, sets [isPaused] or the paused class. *)
Theorem hover_off_never_pauses (raw : RawOptions) (fontLoads : bool)
    (b : Browser) (s : State) (es : list Event) :
  rawPauseOnHover raw = Some false ->
  NewsTicker raw true fontLoads b = Some s ->
  isPaused (this (dispatchAll es s)) = false
  /\ pausedClass (dom (dispatchAll es s)) = false.
Proof.
  intros O N.
  destruct (NewsTicker_display raw fontLoads b s N)
    as (_ & _ & _ & _ & P & C & H & _).
  assert (H' : hoverListeners (dom s) = false)
    by (rewrite H; unfold defaults; cbn; now rewrite O).
  clear H N O.
  assert (G : hoverListeners (dom (dispatchAll es s)) = false
              /\ isPaused (this (dispatchAll es s)) = false
              /\ pausedClass (dom (dispatchAll es s)) = false).
  { revert s P C H'. induction es as [|e es IH]; intros s P C H'.
    - now repeat split.
    - cbn.
      destruct (never_paused_dispatch e s (conj H' (conj P C)))
        as (H1 & P1 & C1).
      now apply IH. }
  split; apply G.
Qed.

Lemma hover_off_never_pauses_witness :
  let raw := mkRaw None None None None (Some false) None None None in
  let b := idleBrowser 0 (Storage None) in
  let s := run (init true true) (constructed raw b) in
  rawPauseOnHover raw = Some false
  /\ NewsTicker raw true true b = Some s
  /\ isPaused (this (dispatchAll [MouseEnter; Frame; MouseEnter] s)) = false
  /\ isPaused (this (dispatch MouseEnter (freshWidget 0))) = true.
Proof.
  intros raw b s.
  assert (N : NewsTicker raw true true b = Some s) by reflexivity.
  destruct (hover_off_never_pauses raw true b s [MouseEnter; Frame; MouseEnter]
              eq_refl N) as (P & _).
  split; [reflexivity|]. split; [exact N|]. split; [exact P | reflexivity].
Defined.

(** ** The requests of the widget *)

Lemma loadHeadlines_request (s : State) :
  selectorConsistent s ->
  exists e,
    In e serviceCycle
    /\ run loadHeadlines s
       = mkState (this s) (dom s)
           (set_inflight
              (inflight (env s)
               ++ [requestFor (endpoint (options (this s))) (service e)])
              (env s)).
Proof.
  intros C. unfold selectorConsistent in C.
  destruct (nth_error serviceCycle (currentServiceIndex (this s)))
    as [e|] eqn:E; [|discriminate].
  injection C as C. exists e.
  assert (K : In e serviceCycle) by (eapply nth_error_In; exact E).
  split; [exact K|].
  unfold run, loadHeadlines, bind, get, fetch, on_env, requestFor.
  cbn [final this dom env]. rewrite <- C.
  cbn in K. destruct K as [<-|[<-|[<-|[<-|[<-|[]]]]]]; reflexivity.
Qed.

Lemma afterRender_inflight (s : State) :
  inflight (env (afterRender s)) = inflight (env s).
Proof.
  unfold afterRender, rendered, afterSave.
  destruct (headlines (this s)); [reflexivity|]. cbn.
  destruct (localStorage (env s)); reflexivity.
Qed.

Lemma settled_inflight (r : FetchResult) (s : State) :
  inflight (env (run (loadHeadlines_settled r) s)) = inflight (env s).
Proof.
  unfold run. destruct (rejected r) eqn:R.
  - rewrite (loadHeadlines_settled_rejected r s R). cbn [final].
    destruct (usableSnapshot s); [rewrite afterRender_inflight|];
      reflexivity.
  - destruct r as [|status [fetched|]]; cbn in R; try discriminate.
    + apply orb_false_elim in R. destruct R as [R _].
      apply negb_false_iff in R.
      rewrite (loadHeadlines_settled_success status fetched s R).
      cbn [final]. cbv zeta. cbn [env].
      rewrite afterRender_inflight. reflexivity.
    + rewrite orb_true_r in R. discriminate.
Qed.

Lemma frames_inflight (ids : list nat) (s : State) :
  inflight (env (fold_left (fun st _ => run animate st) ids s))
  = inflight (env s).
Proof.
  revert s. induction ids as [|id ids IH]; intros s; [reflexivity|].
  cbn [fold_left]. rewrite IH.
  destruct (animate_requests_frame s) as (_ & _ & _ & I & _). exact I.
Qed.

Lemma toggle_env (s : State) : env (run toggleTickerVisibility s) = env s.
Proof.
  destruct s as [w d b];
    destruct d as [att hid bg cb bt bb tl sw od tt td pc hl].
  unfold run, toggleTickerVisibility, bind, get, on_dom, throw.
  cbn -[nth_error].
  destruct att, hid; cbn -[nth_error]; try reflexivity;
    destruct (nth_error _ _); reflexivity.
Qed.

(** No event changes the endpoint the widget was built with. *)
Lemma dispatch_endpoint (e : Event) (s : State) :
  endpoint (options (this (dispatch e s))) = endpoint (options (this s)).
Proof.
  destruct e.
  - unfold dispatch.
    destruct (frames_frame (rafPending (env s))
                (run (on_env (set_rafPending [])) s))
      as (p & a & t & b' & E).
    rewrite E. reflexivity.
  - unfold dispatch. destruct (nth_error _ _); reflexivity.
  - destruct (fetchSettled_run k r s) as [-> | [b ->]]; [reflexivity|].
    destruct (settled_frame r (mkState (this s) (dom s) b))
      as (hs & p & lu & off & l & disp & b' & E & _).
    rewrite E. reflexivity.
  - unfold dispatch. destruct (attached (dom s)); [|reflexivity].
    destruct (selector_frame s onClick (or_introl eq_refl))
      as (i & c & h & bg & cb & bt & br & b' & E).
    rewrite E. reflexivity.
  - unfold dispatch. destruct (attached (dom s)); [|reflexivity].
    destruct (selector_frame s onDblClick (or_intror eq_refl))
      as (i & c & h & bg & cb & bt & br & b' & E).
    rewrite E. reflexivity.
  - unfold dispatch. destruct (hoverListeners (dom s)); reflexivity.
  - unfold dispatch. destruct (hoverListeners (dom s)); reflexivity.
  - reflexivity.
  - reflexivity.
  - unfold dispatch, run, destroy, cancelAnimationFrame, bind, get, on_env,
      on_dom.
    destruct (truthyHandle _); [destruct (animationId _)|]; reflexivity.
  - reflexivity.
  - reflexivity.
Qed.

(** What one event does to the requests on their way: nothing, or one
    request settles, or one request is issued for a service of the cycle. *)
Lemma dispatch_requests (e : Event) (s : State) :
  wellFormed s ->
  inflight (env (dispatch e s)) = inflight (env s)
  \/ (exists k,
        inflight (env (dispatch e s)) = removeNth k (inflight (env s)))
  \/ (exists en,
        In en serviceCycle
        /\ inflight (env (dispatch e s))
           = inflight (env s)
             ++ [requestFor (endpoint (options (this s))) (service en)]).
Proof.
  intros (L & C & _). destruct e.
  - left. unfold dispatch. rewrite frames_inflight. reflexivity.
  - unfold dispatch. destruct (nth_error _ _); [|now left].
    right. right. destruct (loadHeadlines_request s C) as (en & K & E).
    exists en. split; [exact K|]. rewrite E. reflexivity.
  - unfold dispatch. destruct (nth_error _ _); [|now left].
    right. left. exists k.
    change (run (on_env (fun b => set_inflight (removeNth k (inflight b)) b) ;;
                 loadHeadlines_settled r) s)
      with (run (loadHeadlines_settled r)
              (mkState (this s) (dom s)
                 (set_inflight (removeNth k (inflight (env s))) (env s)))).
    rewrite settled_inflight. reflexivity.
  - unfold dispatch. destruct (attached (dom s)) eqn:A; [|now left].
    unfold run, onClick, bind, get. rewrite A. cbn [negb].
    destruct (contentHidden (dom s)).
    + left. fold (run toggleTickerVisibility s). now rewrite toggle_env.
    + right. right. destruct (cycleToNextService_spec s A) as (en & E & R).
      exists en. split; [eapply nth_error_In; exact E|].
      rewrite R. reflexivity.
  - left. unfold dispatch. destruct (attached (dom s)); [|reflexivity].
    unfold onDblClick. now rewrite toggle_env.
  - left. unfold dispatch. destruct (hoverListeners (dom s)); reflexivity.
  - left. unfold dispatch. destruct (hoverListeners (dom s)); reflexivity.
  - left. reflexivity.
  - left. reflexivity.
  - left. unfold dispatch, run, destroy, cancelAnimationFrame, bind, get,
      on_env, on_dom.
    destruct (truthyHandle _); [destruct (animationId _)|]; reflexivity.
  - left. reflexivity.
  - right. right. destruct (loadHeadlines_request s C) as (en & K & E).
    exists en. split; [exact K|]. unfold dispatch, refresh. rewrite E.
    reflexivity.
Qed.

Lemma Forall_removeNth {A} (P : A -> Prop) (k : nat) (l : list A) :
  Forall P l -> Forall P (removeNth k l).
Proof.
  intros F. revert k.
  induction F as [|x l Px F IH]; intros [|k]; cbn; try constructor; auto.
Qed.

(** X16. A widget only ever talks to its own endpoint: every request on its
    way is the endpoint, bare for the service news or followed by
    [?service=id] for another service of the cycle, and one event issues at
    most one request. *)
Theorem widget_requests_own_endpoint (s : State) :
  reachable s ->
  ownRequests s
  /\ forall e,
       (List.length (inflight (env (dispatch e s)))
        <= S (List.length (inflight (env s))))%nat.
Proof.
  intros R. split.
  - induction R as [raw fontLoads now store s N | e s R IH].
    + destruct (NewsTicker_live raw fontLoads _ s N)
        as (_ & _ & _ & _ & _ & _ & _ & F & _).
      unfold ownRequests. rewrite F. cbn [idleBrowser inflight app].
      constructor; [|constructor].
      destruct (NewsTicker_display raw fontLoads _ s N)
        as (_ & _ & _ & _ & _ & _ & _ & _ & _ & O).
      exists (mkService "sports" "Sports" "⚽"). split; [now left|].
      rewrite O. reflexivity.
    + unfold ownRequests in *. rewrite dispatch_endpoint.
      destruct (dispatch_requests e s (reachable_wellFormed s R))
        as [-> | [[k ->] | (en & K & ->)]].
      * exact IH.
      * now apply Forall_removeNth.
      * apply Forall_app. split; [exact IH|].
        constructor; [|constructor]. now exists en.
  - intros e.
    destruct (dispatch_requests e s (reachable_wellFormed s R))
      as [-> | [[k ->] | (en & K & ->)]].
    + lia.
    + assert (H : forall (l : list string) k,
                (List.length (removeNth k l) <= List.length l)%nat).
      { induction l as [|x l IHl]; intros [|j]; cbn; try lia.
        specialize (IHl j). lia. }
      specialize (H (inflight (env s)) k). lia.
    + rewrite length_app. cbn. lia.
Qed.

Lemma widget_requests_own_endpoint_witness :
  let s := dispatchAll [Click; Click; Refresh] (freshWidget 0) in
  reachable s
  /\ ownRequests s
  /\ inflight (env s)
     = [ "/api/news?service=sports"; "/api/news?service=local";
         "/api/news"; "/api/news" ]%string.
Proof.
  intros s.
  assert (R : reachable s).
  { do 3 apply reachable_step.
    exact (reachable_new noOptions true 0 (Storage None) _
             (NewsTicker_started 0 (Storage None))). }
  split; [exact R|].
  split; [exact (proj1 (widget_requests_own_endpoint s R)) | reflexivity].
Defined.

(** ** The offline badge *)

Lemma badge_same (s s' : State) :
  offlineMode (this s') = offlineMode (this s) ->
  offlineDisplay (dom s') = offlineDisplay (dom s) ->
  badgeFollowsMode s -> badgeFollowsMode s'.
Proof. unfold badgeFollowsMode. intros -> ->. trivial. Qed.

Lemma afterRender_badge (s : State) :
  offlineMode (this (afterRender s)) = offlineMode (this s)
  /\ offlineDisplay (dom (afterRender s)) = offlineDisplay (dom s).
Proof.
  unfold afterRender. destruct (headlines (this s)); split; reflexivity.
Qed.

(** However a request settles, the badge and the flag are set together. *)
Lemma badge_settled (r : FetchResult) (s : State) :
  let s' := run (loadHeadlines_settled r) s in
  offlineMode (this s') = rejected r
  /\ offlineDisplay (dom s')
     = (if rejected r then "block" else "none")%string.
Proof.
  cbv zeta. unfold run. destruct (rejected r) eqn:R.
  - rewrite (loadHeadlines_settled_rejected r s R). cbn [final].
    destruct (usableSnapshot s) as [hs|]; [|split; reflexivity].
    destruct (afterRender_badge (withHeadlines hs (markedOffline s)))
      as [-> ->].
    split; reflexivity.
  - destruct r as [|status [fetched|]]; cbn in R; try discriminate.
    + apply orb_false_elim in R. destruct R as [R _].
      apply negb_false_iff in R.
      rewrite (loadHeadlines_settled_success status fetched s R).
      cbn [final]. cbv zeta. cbn [this dom offlineMode set_lastUpdate].
      match goal with
      | |- context [afterRender ?st] =>
          destruct (afterRender_badge st) as [-> ->]
      end.
      split; reflexivity.
    + rewrite orb_true_r in R. discriminate.
Qed.

Lemma badge_dispatch (e : Event) (s : State) :
  badgeFollowsMode s -> badgeFollowsMode (dispatch e s).
Proof.
  intros P. destruct e.
  - unfold dispatch.
    destruct (frames_frame (rafPending (env s))
                (run (on_env (set_rafPending [])) s))
      as (p & a & t & b' & E).
    rewrite E. revert P.
    apply badge_same; destruct s as [x y z]; destruct y; reflexivity.
  - unfold dispatch. destruct (nth_error _ _); [|exact P]. revert P.
    apply badge_same; reflexivity.
  - destruct (fetchSettled_run k r s) as [-> | [b ->]]; [exact P|].
    destruct (badge_settled r (mkState (this s) (dom s) b)) as [M D].
    unfold badgeFollowsMode. rewrite M, D. reflexivity.
  - unfold dispatch. destruct (attached (dom s)); [|exact P].
    destruct (selector_frame s onClick (or_introl eq_refl))
      as (i & c & h & bg & cb & bt & br & b' & E).
    rewrite E. revert P. apply badge_same; reflexivity.
  - unfold dispatch. destruct (attached (dom s)); [|exact P].
    destruct (selector_frame s onDblClick (or_intror eq_refl))
      as (i & c & h & bg & cb & bt & br & b' & E).
    rewrite E. revert P. apply badge_same; reflexivity.
  - unfold dispatch. destruct (hoverListeners (dom s)); [|exact P]. revert P.
    apply badge_same; destruct s as [x y z]; destruct y; reflexivity.
  - unfold dispatch. destruct (hoverListeners (dom s)); [|exact P]. revert P.
    apply badge_same; destruct s as [x y z]; destruct y; reflexivity.
  - revert P.
    apply badge_same; destruct s as [x y z]; destruct y; reflexivity.
  - revert P. apply badge_same; reflexivity.
  - revert P. apply badge_same;
      unfold dispatch, run, destroy, cancelAnimationFrame, bind, get, on_env,
        on_dom;
      (destruct (truthyHandle _); [destruct (animationId _)|]);
      destruct s as [x y z]; destruct y; reflexivity.
  - revert P. apply badge_same; reflexivity.
  - revert P. apply badge_same; reflexivity.
Qed.

(** X17. The offline badge never disagrees with [offlineMode]: in every
    state of a widget the badge is displayed exactly while the flag is set.
    The flag is set by a request that fails or whose body is not a list, and
    cleared by the next request that succeeds. *)
Theorem badge_follows_offline_mode (s : State) :
  reachable s ->
  badgeFollowsMode s
  /\ forall k r request,
       nth_error (inflight (env s)) k = Some request ->
       offlineMode (this (dispatch (FetchSettled k r) s)) = rejected r.
Proof.
  intros R. split.
  - induction R as [raw fontLoads now store s N | e s R IH].
    + destruct (NewsTicker_display raw fontLoads _ s N)
        as (_ & _ & _ & _ & _ & _ & _ & M & D & _).
      unfold badgeFollowsMode. rewrite M, D. reflexivity.
    + now apply badge_dispatch.
  - intros k r request E. unfold dispatch. rewrite E.
    change (run (on_env (fun b => set_inflight (removeNth k (inflight b)) b) ;;
                 loadHeadlines_settled r) s)
      with (run (loadHeadlines_settled r)
              (mkState (this s) (dom s)
                 (set_inflight (removeNth k (inflight (env s))) (env s)))).
    apply badge_settled.
Qed.

Lemma badge_follows_offline_mode_witness :
  let s := dispatchAll [FetchSettled 0 NetworkError; Refresh]
                       (freshWidget 0) in
  reachable s
  /\ offlineMode (this s) = true
  /\ offlineDisplay (dom s) = "block"%string
  /\ offlineMode
       (this (dispatch (FetchSettled 0 (HttpResponse 200 (Some []))) s))
     = false.
Proof.
  intros s.
  assert (R : reachable s).
  { do 2 apply reachable_step.
    exact (reachable_new noOptions true 0 (Storage None) _
             (NewsTicker_started 0 (Storage None))). }
  destruct (badge_follows_offline_mode s R) as [B F].
  split; [exact R|]. split; [reflexivity|]. split.
  - unfold badgeFollowsMode in B.
    change (offlineMode (this s)) with true in B. exact B.
  - exact (F 0%nat (HttpResponse 200 (Some [])) _ eq_refl).
Defined.

(** ** Relative age: timestamps ahead of the clock *)

(** X18. A timestamp ahead of the clock reads "now": a negative age is
    below one minute, whatever its size. *)
Theorem formatTimeAgo_future (s : State) (timestamp : Z) :
  clock (env s) < timestamp ->
  formatTimeAgo timestamp s = Normal "now"%string s.
Proof.
  intros L. rewrite formatTimeAgo_spec. unfold formatTimeAgoAt, Js.floorDiv.
  assert (E : ((clock (env s) - timestamp) / 60000 <? 1) = true)
    by (apply Z.ltb_lt; Z.div_mod_to_equations; lia).
  now rewrite E.
Qed.

Lemma formatTimeAgo_future_witness :
  let s := freshWidget 1000 in
  clock (env s) < 900000000
  /\ formatTimeAgo 900000000 s = Normal "now"%string s.
Proof.
  intros s.
  assert (L : clock (env s) < 900000000) by (vm_compute; reflexivity).
  split; [exact L | exact (formatTimeAgo_future s 900000000 L)].
Defined.

(** ** The news endpoint: source selection and errors *)

(** X19. The endpoint answers with status 500 in exactly two cases: neither
    the file of the service nor the default source can be read, or [q] is
    present and is not a string (a repeated or nested parameter, which has
    no [toLowerCase]). In every other case it answers with a list. *)
Theorem apiNews_failure_cases
    (toLowerCase : string -> string)
    (loadHeadlinesFromSource : string -> option (list Headline))
    (loadHeadlines : option (list Headline))
    (req : Server.Request) :
  let response :=
    Server.apiNews toLowerCase loadHeadlinesFromSource loadHeadlines req in
  (response = Server.Failure 500 "Failed to load news"
   <-> Server.selected loadHeadlinesFromSource loadHeadlines req = None
       \/ Server.queryQ req = Some Server.QOther)
  /\ (response = Server.Failure 500 "Failed to load news"
      \/ exists body, response = Server.Json body).
Proof.
  cbv zeta. unfold Server.apiNews.
  destruct (Server.selected _ _ req) as [hs|].
  - destruct (Server.queryQ req) as [[q|]|]; cbn.
    + destruct (Js.truthy q); split;
        try (right; eexists; reflexivity);
        (split; [discriminate | intros [H|H]; discriminate H]).
    + split; [|now left]. split; [now right | reflexivity].
    + split; [|right; eexists; reflexivity].
      split; [discriminate | intros [H|H]; discriminate H].
  - split; [|now left]. split; [now left | reflexivity].
Qed.

(** X20. Without a usable [q] (absent, or empty) the endpoint returns the
    list of the selected source as it is: the file of the service when it
    can be read, the default source otherwise. *)
Theorem apiNews_without_query
    (toLowerCase : string -> string)
    (loadHeadlinesFromSource : string -> option (list Headline))
    (loadHeadlines : option (list Headline))
    (req : Server.Request) :
  Server.queryQ req = None
  \/ Server.queryQ req = Some (Server.QString "") ->
  Server.apiNews toLowerCase loadHeadlinesFromSource loadHeadlines req
  = match loadHeadlinesFromSource
            (Server.sourceFile (Server.queryService req)) with
    | Some fromFile => Server.Json fromFile
    | None =>
        match loadHeadlines with
        | Some fallback => Server.Json fallback
        | None => Server.Failure 500 "Failed to load news"
        end
    end.
Proof.
  intros Q. unfold Server.apiNews, Server.selected.
  destruct (loadHeadlinesFromSource _) as [hs|];
    [|destruct loadHeadlines as [hs|]; [|reflexivity]];
    destruct Q as [-> | ->]; reflexivity.
Qed.

Lemma apiNews_without_query_witness :
  let files := fun f : string =>
                 if String.eqb f "news-local.txt"
                 then Some [headlineA 1] else None in
  let local := Server.mkRequest (Some (Server.QString "local"))
                                (Some (Server.QString "")) in
  let tweets := Server.mkRequest (Some (Server.QString "tweets")) None in
  Server.queryQ local = Some (Server.QString "")
  /\ Server.apiNews Js.asciiLowerCase files (Some [headlineB 2]) local
     = Server.Json [headlineA 1]
  /\ Server.apiNews Js.asciiLowerCase files (Some [headlineB 2]) tweets
     = Server.Json [headlineB 2].
Proof.
  intros files local tweets.
  assert (Q : Server.queryQ local = Some (Server.QString "")) by reflexivity.
  split; [exact Q|]. split.
  - rewrite (apiNews_without_query Js.asciiLowerCase files
               (Some [headlineB 2]) local (or_intror Q)).
    reflexivity.
  - rewrite (apiNews_without_query Js.asciiLowerCase files
               (Some [headlineB 2]) tweets (or_introl eq_refl)).
    reflexivity.
Defined.

(** X21. A [service] that is not one of local, sports, weather and tweets
    (absent, empty, unknown, news itself, or not a string) is served as
    news: the file read is [news.txt] and the response is that of the same
    request without [service]. *)
Theorem unknown_service_is_news
    (toLowerCase : string -> string)
    (loadHeadlinesFromSource : string -> option (list Headline))
    (loadHeadlines : option (list Headline))
    (req : Server.Request) :
  (forall id, Server.queryService req = Some (Server.QString id) ->
              ~ In id ownFile) ->
  Server.sourceFile (Server.queryService req) = "news.txt"%string
  /\ Server.apiNews toLowerCase loadHeadlinesFromSource loadHeadlines req
     = Server.apiNews toLowerCase loadHeadlinesFromSource loadHeadlines
         (Server.mkRequest None (Server.queryQ req)).
Proof.
  intros U.
  assert (F : Server.sourceFile (Server.queryService req) = "news.txt"%string).
  { unfold Server.sourceFile, Server.truthy.
    destruct (Server.queryService req) as [[id|]|]; try reflexivity.
    specialize (U id eq_refl). unfold ownFile in U. cbn [In] in U.
    destruct (Js.truthy id); [|reflexivity].
    destruct (String.eqb id "local") eqn:E1;
      [apply String.eqb_eq in E1; subst; tauto|].
    destruct (String.eqb id "sports") eqn:E2;
      [apply String.eqb_eq in E2; subst; tauto|].
    destruct (String.eqb id "weather") eqn:E3;
      [apply String.eqb_eq in E3; subst; tauto|].
    destruct (String.eqb id "tweets") eqn:E4;
      [apply String.eqb_eq in E4; subst; tauto|].
    reflexivity. }
  split; [exact F|].
  unfold Server.apiNews, Server.selected.
  cbn [Server.queryService Server.queryQ].
  rewrite F. reflexivity.
Qed.

Lemma unknown_service_is_news_witness :
  let files := fun f : string =>
                 if String.eqb f "news.txt"
                 then Some [headlineA 1] else Some [headlineB 2] in
  let req := Server.mkRequest (Some (Server.QString "finance")) None in
  (forall id, Server.queryService req = Some (Server.QString id) ->
              ~ In id ownFile)
  /\ Server.apiNews Js.asciiLowerCase files None req
     = Server.Json [headlineA 1].
Proof.
  intros files req.
  assert (U : forall id, Server.queryService req = Some (Server.QString id) ->
                         ~ In id ownFile).
  { intros id E. injection E as <-. unfold ownFile. cbn [In].
    intros [H|[H|[H|[H|[]]]]]; discriminate H. }
  split; [exact U|].
  rewrite (proj2 (unknown_service_is_news Js.asciiLowerCase files None req U)).
  reflexivity.
Defined.

(** X22. The filter does not see the case of [q]: two requests for the same
    service whose non-empty [q] agree once put in lower case get the same
    response. *)
Theorem apiNews_ignores_case_of_query
    (toLowerCase : string -> string)
    (loadHeadlinesFromSource : string -> option (list Headline))
    (loadHeadlines : option (list Headline))
    (service : option Server.QueryValue) (q1 q2 : string) :
  q1 <> ""%string ->
  q2 <> ""%string ->
  toLowerCase q1 = toLowerCase q2 ->
  Server.apiNews toLowerCase loadHeadlinesFromSource loadHeadlines
    (Server.mkRequest service (Some (Server.QString q1)))
  = Server.apiNews toLowerCase loadHeadlinesFromSource loadHeadlines
      (Server.mkRequest service (Some (Server.QString q2))).
Proof.
  intros N1 N2 E. unfold Server.apiNews, Server.selected.
  cbn [Server.queryService Server.queryQ Server.truthy].
  destruct q1 as [|c1 r1]; [congruence|].
  destruct q2 as [|c2 r2]; [congruence|].
  cbn [Js.truthy String.eqb negb]. rewrite E. reflexivity.
Qed.

Lemma apiNews_ignores_case_of_query_witness :
  let files := fun _ : string =>
                 Some [ mkHeadline "ESPN" "Cup final tonight" "u1" 1;
                        mkHeadline "BBC" "Transfer news" "u2" 2 ] in
  "CUP"%string <> ""%string
  /\ "cup"%string <> ""%string
  /\ Server.apiNews Js.asciiLowerCase files None
       (Server.mkRequest None (Some (Server.QString "CUP")))
     = Server.Json [mkHeadline "ESPN" "Cup final tonight" "u1" 1].
Proof.
  intros files.
  assert (N1 : "CUP"%string <> ""%string) by discriminate.
  assert (N2 : "cup"%string <> ""%string) by discriminate.
  split; [exact N1|]. split; [exact N2|].
  rewrite (apiNews_ignores_case_of_query Js.asciiLowerCase files None None
             "CUP" "cup" N1 N2 eq_refl).
  reflexivity.
Defined.
